(** * Command batching library ([async.cpp]): a shallow embedding

    The development follows the layout of the source file:
    - machine integers and [std::to_string];
    - the process-wide statics ([Logger]'s queues, the file-name counter)
      together with the wall clock read by [std::time];
    - the per-session aggregator [Bulk] ([log], [flush], [process]);
    - the session API ([connect], [receive], [disconnect]) over a heap of
      live [Bulk] objects addressed by raw pointers;
    - the sink workers and the [Logger] destructor as an interleaving
      transition system.

    Undefined behaviour of the C++ abstract machine (signed overflow of the
    nesting level, a dereference of a pointer that designates no live
    object) is an explicit outcome [UB] of the operations that can reach
    it. *)

From Stdlib Require Import ZArith String Ascii List Lia Bool.
From Stdlib Require Import Decimal DecimalString DecimalN DecimalZ.
From stdpp Require Import base option list gmap strings.

Local Open Scope string_scope.
Local Open Scope list_scope.
Local Open Scope Z_scope.

(** ** Machine integers *)

(** [std::size_t] on the LP64 targets the project builds for: arithmetic is
    modulo [2^64]. *)
Definition SIZE_MOD : Z := 2 ^ 64.
Definition size_incr (n : Z) : Z := (n + 1) mod SIZE_MOD.

(** [unsigned int]: arithmetic modulo [2^32]. *)
Definition UINT_MOD : Z := 2 ^ 32.
Definition uint_incr (n : Z) : Z := (n + 1) mod UINT_MOD.

(** [int]: overflow is undefined behaviour. *)
Definition INT_MAX : Z := 2 ^ 31 - 1.
Definition INT_MIN : Z := - 2 ^ 31.

Inductive result (A : Type) : Type :=
  | Ok (a : A)
  | UB.
Arguments Ok {A} a.
Arguments UB {A}.

Global Instance result_ret : MRet result := fun _ a => Ok a.
Global Instance result_bind : MBind result := fun _ _ f m =>
  match m with
  | Ok a => f a
  | UB => UB
  end.

Definition int_incr (n : Z) : result Z :=
  if n <? INT_MAX then Ok (n + 1) else UB.
Definition int_decr (n : Z) : result Z :=
  if INT_MIN <? n then Ok (n - 1) else UB.

(** ** [std::to_string] *)

(** [std::to_string(long)]: decimal digits, a leading minus sign for a
    negative value. *)
Definition to_string_long (z : Z) : string :=
  NilZero.string_of_int (Z.to_int z).

(** [std::to_string(unsigned)]: decimal digits. *)
Definition to_string_unsigned (n : Z) : string :=
  NilZero.string_of_uint (N.to_uint (Z.to_N n)).

(** ** Process-wide statics and the clock *)

(** [clock i] is the value returned by the [i]-th call of
    [std::time(nullptr)] in the process; [ticks] counts the calls made so
    far.  The two queues record what has been pushed, in push order. *)
Record Globals : Type := mkGlobals {
  clock : nat -> Z;
  ticks : nat;
  postfix_counter : Z;
  g_fileLogQueue : list (string * string);
  g_consoleLogQueue : list string
}.

Definition std_time (g : Globals) : Z * Globals :=
  (clock g (ticks g),
   mkGlobals (clock g) (S (ticks g)) (postfix_counter g)
             (g_fileLogQueue g) (g_consoleLogQueue g)).

(** ** The aggregator [Bulk] *)

Record Bulk : Type := mkBulk {
  m_cmds : string;
  m_buffer_size : Z;
  m_nCmds : Z;
  m_time : Z;
  m_nestingLvl : Z
}.

Definition set_cmds (b : Bulk) (s : string) : Bulk :=
  mkBulk s (m_buffer_size b) (m_nCmds b) (m_time b) (m_nestingLvl b).
Definition set_nCmds (b : Bulk) (n : Z) : Bulk :=
  mkBulk (m_cmds b) (m_buffer_size b) n (m_time b) (m_nestingLvl b).
Definition set_time (b : Bulk) (t : Z) : Bulk :=
  mkBulk (m_cmds b) (m_buffer_size b) (m_nCmds b) t (m_nestingLvl b).
Definition set_nestingLvl (b : Bulk) (d : Z) : Bulk :=
  mkBulk (m_cmds b) (m_buffer_size b) (m_nCmds b) (m_time b) d.

(** [Bulk::Bulk(size_t buffer_size)]. *)
Definition Bulk_ctor (buffer_size : Z) (g : Globals) : Bulk * Globals :=
  let '(t, g1) := std_time g in
  (mkBulk "bulk:" buffer_size 0 t 0, g1).

(** The name of the file a batch goes to (lines 138-140). *)
Definition file_name (time : Z) (counter : Z) : string :=
  "bulk" +:+ to_string_long time +:+ "_" +:+ to_string_unsigned counter +:+ ".log".

(** [Bulk::log]. *)
Definition log (b : Bulk) (g : Globals) : Bulk * Globals :=
  let g1 :=
    if 0 <? m_nCmds b then
      let filename := file_name (m_time b) (postfix_counter g) in
      mkGlobals (clock g) (ticks g) (uint_incr (postfix_counter g))
                (g_fileLogQueue g ++ [(filename, m_cmds b)])
                (g_consoleLogQueue g ++ [m_cmds b])
    else g in
  let '(t, g2) := std_time g1 in
  (mkBulk "bulk:" (m_buffer_size b) 0 t 0, g2).

(** [Bulk::flush]. *)
Definition flush (b : Bulk) (g : Globals) : Bulk * Globals :=
  if m_nestingLvl b =? 0 then log b g else (b, g).

(** The plain-command branch of [Bulk::process] up to and including
    [++m_nCmds] (lines 182-188). *)
Definition push_cmd (cmd : string) (b : Bulk) (g : Globals) : Bulk * Globals :=
  let '(b1, g1) :=
    if 0 <? m_nCmds b then (set_cmds b (m_cmds b +:+ ","), g)
    else let '(t, g') := std_time g in (set_time b t, g') in
  let b2 := set_cmds b1 (m_cmds b1 +:+ " " +:+ cmd) in
  (set_nCmds b2 (size_incr (m_nCmds b2)), g1).

(** [Bulk::process]. *)
Definition process (cmd : string) (b : Bulk) (g : Globals)
  : result (Bulk * Globals) :=
  if String.eqb cmd "{" then
    let '(b1, g1) := if m_nestingLvl b =? 0 then flush b g else (b, g) in
    d ← int_incr (m_nestingLvl b1);
    Ok (set_nestingLvl b1 d, g1)
  else if String.eqb cmd "}" then
    d ← int_decr (m_nestingLvl b);
    let b1 := set_nestingLvl b d in
    Ok (if d =? 0 then flush b1 g else (b1, g))
  else
    let '(b1, g1) := push_cmd cmd b g in
    Ok (if (m_nCmds b1 =? m_buffer_size b1) && (m_nestingLvl b1 =? 0)
        then flush b1 g1 else (b1, g1)).

(** Consecutive calls of [process] on one session. *)
Fixpoint process_all (cmds : list string) (b : Bulk) (g : Globals)
  : result (Bulk * Globals) :=
  match cmds with
  | [] => Ok (b, g)
  | cmd :: rest => '(b1, g1) ← process cmd b g; process_all rest b1 g1
  end.

(** ** The session API *)

(** The loop [while (std::getline(stream, cmd))] of [receive]: the lines of
    [data], where [acc] holds the characters extracted so far by the call
    of [getline] in progress.  At the end of the data that call succeeds
    only if it extracted something. *)
Fixpoint getlines (acc : string) (data : string) : list string :=
  match data with
  | EmptyString => if String.eqb acc "" then [] else [acc]
  | String c rest =>
      if Ascii.eqb c "010"%char then acc :: getlines "" rest
      else getlines (acc +:+ String c "") rest
  end.

Definition nonempty (cmd : string) : bool := negb (String.eqb cmd "").

(** A handle is the address of a [Bulk]; [0] is the null pointer.  The heap
    holds the live [Bulk] objects. *)
Record Machine : Type := mkMachine {
  statics : Globals;
  heap : gmap N Bulk
}.

Definition nullptr : N := 0%N.

(** [new Bulk(...)] returns the address of storage no live object
    occupies; that address is not null. *)
Definition new_addr (h : gmap N Bulk) : N := fresh ({[nullptr]} ∪ dom h).

(** [async::connect]. *)
Definition connect (bulk : Z) (m : Machine) : N * Machine :=
  let '(b, g1) := Bulk_ctor bulk (statics m) in
  let p := new_addr (heap m) in
  (p, mkMachine g1 (<[p := b]> (heap m))).

(** [async::disconnect]. *)
Definition disconnect (handle : N) (m : Machine) : result Machine :=
  if (handle =? nullptr)%N then Ok m
  else match heap m !! handle with
       | None => UB
       | Some b =>
           let '(_, g1) := flush b (statics m) in
           Ok (mkMachine g1 (delete handle (heap m)))
       end.

(** [async::receive]. *)
Definition receive (handle : N) (data : string) (m : Machine) : result Machine :=
  if (handle =? nullptr)%N then Ok m
  else match heap m !! handle with
       | None => UB
       | Some b =>
           '(b1, g1) ← process_all (filter (fun c => nonempty c = true) (getlines "" data))
                                   b (statics m);
           Ok (mkMachine g1 (<[handle := b1]> (heap m)))
       end.

(** The state of a process in which no session has been opened and nothing
    has been flushed yet. *)
Definition boot (clk : nat -> Z) : Machine :=
  mkMachine (mkGlobals clk 0 0 [] []) ∅.

(** The line terminator [receive] splits on. *)
Definition nl : string := String "010"%char "".

(** ** Commands, batches and the wire format *)

(** A command that is neither block marker. *)
Definition plain (cmd : string) : bool :=
  negb (String.eqb cmd "{") && negb (String.eqb cmd "}").

Definition plain_cmds (cmds : list string) : list string :=
  List.filter plain cmds.
Definition markers (cmds : list string) : list string :=
  List.filter (fun c => negb (plain c)) cmds.

(** The change of the nesting level a command asks for. *)
Definition delta (cmd : string) : Z :=
  if String.eqb cmd "{" then 1 else if String.eqb cmd "}" then -1 else 0.

Fixpoint depth_after (d : Z) (cmds : list string) : Z :=
  match cmds with
  | [] => d
  | cmd :: rest => depth_after (d + delta cmd) rest
  end.

(** The batch wire format, as the interface description words it: the
    prefix, one space and the first command, then a comma, a space and the
    command for each later one. *)
Fixpoint wire_tail (rest : list string) : string :=
  match rest with
  | [] => ""
  | cmd :: rest' => ", " +:+ cmd +:+ wire_tail rest'
  end.

Definition wire_format (cmds : list string) : string :=
  match cmds with
  | [] => "bulk:"
  | first :: rest => "bulk:" +:+ " " +:+ first +:+ wire_tail rest
  end.

(** [pending b p]: the commands buffered in [b] since its last reset are
    [p], oldest first. *)
Definition pending (b : Bulk) (p : list string) : Prop :=
  m_cmds b = wire_format p /\ m_nCmds b = Z.of_nat (length p).

(** What one call of [log] pushes for a buffer holding [p]. *)
Definition batch_of (p : list string) : list (list string) :=
  match p with
  | [] => []
  | _ :: _ => [p]
  end.

(** [pushed g g' items]: between [g] and [g'] exactly [items] were pushed
    onto the console queue, and the same strings, in the same order, onto
    the file queue as contents. *)
Definition pushed (g g' : Globals) (items : list string) : Prop :=
  g_consoleLogQueue g' = g_consoleLogQueue g ++ items /\
  map snd (g_fileLogQueue g') = map snd (g_fileLogQueue g) ++ items /\
  length (g_fileLogQueue g') = (length (g_fileLogQueue g) + length items)%nat.

(** The aggregator seen through its pending list and nesting level: the
    successor state and the batches handed over by one [process]. *)
Definition abs_step (capacity : Z) (cmd : string) (st : list string * Z)
  : (list string * Z) * list (list string) :=
  let '(p, d) := st in
  if String.eqb cmd "{" then
    if d =? 0 then (([], 1), batch_of p) else ((p, d + 1), [])
  else if String.eqb cmd "}" then
    if d - 1 =? 0 then (([], 0), batch_of p) else ((p, d - 1), [])
  else
    let p' := p ++ [cmd] in
    if (Z.of_nat (length p') =? capacity) && (d =? 0)
    then (([], 0), batch_of p') else ((p', d), []).

Fixpoint abs_run (capacity : Z) (cmds : list string) (st : list string * Z)
  : (list string * Z) * list (list string) :=
  match cmds with
  | [] => (st, [])
  | cmd :: rest =>
      let '(st1, out1) := abs_step capacity cmd st in
      let '(st2, out2) := abs_run capacity rest st1 in
      (st2, out1 ++ out2)
  end.

(** [balanced_from n cmds]: read inside [n] open inner blocks, [cmds]
    closes every block it opens, closes those [n] blocks and no other. *)
Fixpoint balanced_from (n : nat) (cmds : list string) : bool :=
  match cmds with
  | [] => Nat.eqb n 0
  | cmd :: rest =>
      if String.eqb cmd "{" then balanced_from (S n) rest
      else if String.eqb cmd "}" then
        match n with
        | O => false
        | S n' => balanced_from n' rest
        end
      else balanced_from n rest
  end.

(** The body of a block: the commands between an open marker and the close
    marker that matches it. *)
Definition block_body (cmds : list string) : bool := balanced_from 0 cmds.

(** Whether a character occurs in a string. *)
Fixpoint has_char (c : ascii) (s : string) : bool :=
  match s with
  | EmptyString => false
  | String a rest => Ascii.eqb a c || has_char c rest
  end.

(** The file queue is named consistently: the counter is the number of
    files pushed so far, reduced modulo [2^32], and the [i]-th file carries
    the counter value [i mod 2^32] in its name. *)
Definition names_wf (g : Globals) : Prop :=
  postfix_counter g = Z.of_nat (length (g_fileLogQueue g)) mod UINT_MOD /\
  forall (i : nat) (name content : string),
    g_fileLogQueue g !! i = Some (name, content) ->
    exists t : Z, name = file_name t (Z.of_nat i mod UINT_MOD).

(** Calls of the session API, by any caller and on any handle. *)
Inductive call : Type :=
  | Connect (bulk : Z)
  | Receive (handle : N) (data : string)
  | Disconnect (handle : N).

Definition run_call (c : call) (m : Machine) : result Machine :=
  match c with
  | Connect bulk => Ok (connect bulk m).2
  | Receive handle data => receive handle data m
  | Disconnect handle => disconnect handle m
  end.

Fixpoint run_calls (cs : list call) (m : Machine) : result Machine :=
  match cs with
  | [] => Ok m
  | c :: rest => m1 ← run_call c m; run_calls rest m1
  end.

(** A clock that advances by one second every eight readings. *)
Definition slow_clock : nat -> Z := fun i => 1700000000 + Z.of_nat i / 8.

(** Two sessions of capacity one.  The second opens a block and receives
    its first command in the second in which the first session flushes its
    first batch; the first session then flushes [2^32 - 1] more batches;
    at last the second session closes its block. *)
Definition wrap_calls : list call :=
  [Connect 1; Connect 1;
   Receive 2%N ("{" +:+ nl +:+ "b" +:+ nl);
   Receive 1%N ("a" +:+ nl)]
  ++ repeat (Receive 1%N ("a" +:+ nl)) (Z.to_nat (UINT_MOD - 1))
  ++ [Receive 2%N ("}" +:+ nl)].

(** ** The sink workers and the [Logger] destructor *)

(** Where a worker thread stands in its loop ([console_logger],
    [file_logger]): about to evaluate the predicate of [wait] with the
    mutex held; blocked inside [wait]; holding an item it has popped, the
    mutex released, about to write it; or past the [break]. *)
Inductive worker_pc (A : Type) : Type :=
  | AtWait
  | Blocked
  | Writing (item : A)
  | Exited.
Arguments AtWait {A}.
Arguments Blocked {A}.
Arguments Writing {A} item.
Arguments Exited {A}.

(** Where the thread that runs [Logger::~Logger] stands: before the
    destructor, inside [join] of [g_workerThreads[k]], or done. *)
Inductive dtor_pc : Type :=
  | NotEntered
  | Joining (k : nat)
  | Destroyed.

Record Logger : Type := mkLogger {
  s_bStopWorkers : bool;
  con_queue : list string;
  file_queue : list (string * string);
  console_thread : worker_pc string;
  file_thread1 : worker_pc (string * string);
  file_thread2 : worker_pc (string * string);
  console_out : list string;
  files_out : list (string * string);
  dtor : dtor_pc
}.

(** One step of a worker loop over its queue: the critical section of
    lines 72-80 (92-100) is one step, the write of line 83 (103-104)
    another.  The result is the new position, the new queue and what was
    written. *)
Definition logger_step {A : Type} (stop : bool) (q : list A) (pc : worker_pc A)
  : option (worker_pc A * list A * list A) :=
  match pc with
  | AtWait =>
      match q with
      | [] => if stop then Some (Exited, [], []) else Some (Blocked, [], [])
      | item :: q' => Some (Writing item, q', [])
      end
  | Writing item => Some (AtWait, q, [item])
  | Blocked => None
  | Exited => None
  end.

(** A notification (or a spurious wake-up) makes a blocked thread take the
    mutex again and re-evaluate the predicate. *)
Definition wake {A : Type} (pc : worker_pc A) : option (worker_pc A) :=
  match pc with
  | Blocked => Some AtWait
  | _ => None
  end.

Definition is_blocked {A : Type} (pc : worker_pc A) : bool :=
  match pc with Blocked => true | _ => false end.

Definition has_exited {A : Type} (pc : worker_pc A) : bool :=
  match pc with Exited => true | _ => false end.

(** What can happen next in the process: worker thread [k] of
    [g_workerThreads] (0 the console worker, 1 and 2 the file workers)
    takes a step; the destructor takes a step; a session thread inside
    [Bulk::log] pushes the file item (lines 143-146), notifies [g_con_cv]
    (line 148), pushes the console item (lines 150-153), notifies
    [g_file_cv] (line 155), which wakes the blocked file worker [k] if
    there is one; a blocked thread wakes up spuriously. *)
Inductive event : Type :=
  | Run (k : nat)
  | Destroy
  | PushFile (item : string * string)
  | NotifyCon
  | PushConsole (item : string)
  | NotifyFile (k : nat)
  | Spurious (k : nat).

Definition set_console (s : Logger) (pc : worker_pc string)
    (q : list string) (out : list string) : Logger :=
  mkLogger (s_bStopWorkers s) q (file_queue s) pc (file_thread1 s) (file_thread2 s)
           (console_out s ++ out) (files_out s) (dtor s).

Definition set_file1 (s : Logger) (pc : worker_pc (string * string))
    (q : list (string * string)) (out : list (string * string)) : Logger :=
  mkLogger (s_bStopWorkers s) (con_queue s) q (console_thread s) pc (file_thread2 s)
           (console_out s) (files_out s ++ out) (dtor s).

Definition set_file2 (s : Logger) (pc : worker_pc (string * string))
    (q : list (string * string)) (out : list (string * string)) : Logger :=
  mkLogger (s_bStopWorkers s) (con_queue s) q (console_thread s) (file_thread1 s) pc
           (console_out s) (files_out s ++ out) (dtor s).

Definition thread_exited (s : Logger) (k : nat) : bool :=
  match k with
  | 0%nat => has_exited (console_thread s)
  | 1%nat => has_exited (file_thread1 s)
  | 2%nat => has_exited (file_thread2 s)
  | _ => false
  end.

Definition wake_thread (s : Logger) (k : nat) : option Logger :=
  match k with
  | 0%nat => pc ← wake (console_thread s); Some (set_console s pc (con_queue s) [])
  | 1%nat => pc ← wake (file_thread1 s); Some (set_file1 s pc (file_queue s) [])
  | 2%nat => pc ← wake (file_thread2 s); Some (set_file2 s pc (file_queue s) [])
  | _ => None
  end.

(** [Logger::~Logger]: store [true] into the stop flag, then join the
    three threads in order. *)
Definition dtor_step (s : Logger) : option Logger :=
  match dtor s with
  | NotEntered =>
      Some (mkLogger true (con_queue s) (file_queue s) (console_thread s)
                     (file_thread1 s) (file_thread2 s) (console_out s) (files_out s)
                     (Joining 0))
  | Joining k =>
      if thread_exited s k then
        Some (mkLogger (s_bStopWorkers s) (con_queue s) (file_queue s) (console_thread s)
                       (file_thread1 s) (file_thread2 s) (console_out s) (files_out s)
                       (if (k <? 2)%nat then Joining (S k) else Destroyed))
      else None
  | Destroyed => None
  end.

Definition step (e : event) (s : Logger) : option Logger :=
  match e with
  | Run 0 =>
      '(pc, q, out) ← logger_step (s_bStopWorkers s) (con_queue s) (console_thread s);
      Some (set_console s pc q out)
  | Run 1 =>
      '(pc, q, out) ← logger_step (s_bStopWorkers s) (file_queue s) (file_thread1 s);
      Some (set_file1 s pc q out)
  | Run 2 =>
      '(pc, q, out) ← logger_step (s_bStopWorkers s) (file_queue s) (file_thread2 s);
      Some (set_file2 s pc q out)
  | Run _ => None
  | Destroy => dtor_step s
  | PushFile item => Some (set_file1 s (file_thread1 s) (file_queue s ++ [item]) [])
  | NotifyCon =>
      if is_blocked (console_thread s) then wake_thread s 0 else Some s
  | PushConsole item => Some (set_console s (console_thread s) (con_queue s ++ [item]) [])
  | NotifyFile k =>
      if is_blocked (file_thread1 s) || is_blocked (file_thread2 s)
      then match k with
           | 1%nat | 2%nat => wake_thread s k
           | _ => None
           end
      else Some s
  | Spurious k => wake_thread s k
  end.

Fixpoint run (es : list event) (s : Logger) : option Logger :=
  match es with
  | [] => Some s
  | e :: rest => s1 ← step e s; run rest s1
  end.

(** The state [Logger::Logger] leaves: three threads about to enter
    [wait], empty queues, the stop flag clear. *)
Definition started : Logger :=
  mkLogger false [] [] AtWait AtWait AtWait [] [] NotEntered.

Definition is_spurious (e : event) : bool :=
  match e with Spurious _ => true | _ => false end.

(** Events of a session thread inside [Bulk::log]. *)
Definition is_producer (e : event) : bool :=
  match e with
  | PushFile _ | NotifyCon | PushConsole _ | NotifyFile _ => true
  | _ => false
  end.

(** One batch is flushed while the workers wait, each worker runs as far
    as it can, and then the destructor starts. *)
Definition flush_then_exit : list event :=
  [Run 0; Run 1; Run 2;
   PushFile ("bulk1700000000_0.log", "bulk: a"); NotifyCon; Run 0;
   PushConsole "bulk: a"; NotifyFile 1; Run 1; Run 1; Run 1;
   Destroy].

(** No batch is ever flushed; the destructor starts while the workers
    wait. *)
Definition idle_then_exit : list event := [Run 0; Run 1; Run 2; Destroy].

(** ** Further vocabulary: buffers, calls and worker traces *)

(** The commands [receive] hands to [process] for a buffer: its non-empty
    lines. *)
Definition commands_of (data : string) : list string :=
  filter (fun c => nonempty c = true) (getlines "" data).

(** Lines written back with their terminators. *)
Definition unlines (lines : list string) : string :=
  fold_right (fun l acc => l +:+ nl +:+ acc) "" lines.

(** A buffer that is empty or ends with the line terminator. *)
Fixpoint terminated (data : string) : bool :=
  match data with
  | EmptyString => true
  | String c rest =>
      match rest with
      | EmptyString => Ascii.eqb c "010"%char
      | String _ _ => terminated rest
      end
  end.

(** A buffer that holds nothing but line terminators. *)
Fixpoint blank (data : string) : bool :=
  match data with
  | EmptyString => true
  | String c rest => Ascii.eqb c "010"%char && blank rest
  end.

(** The handle a call works on. *)
Definition call_handle (c : call) : option N :=
  match c with
  | Connect _ => None
  | Receive handle _ => Some handle
  | Disconnect handle => Some handle
  end.

(** The two queues carry the same strings in the same order. *)
Definition queues_agree (g : Globals) : Prop :=
  map snd (g_fileLogQueue g) = g_consoleLogQueue g.

(** The item a worker has popped and not yet written. *)
Definition inflight {A : Type} (pc : worker_pc A) : list A :=
  match pc with
  | Writing item => [item]
  | _ => []
  end.

(** What a sequence of events pushes onto each queue. *)
Fixpoint console_pushes (es : list event) : list string :=
  match es with
  | [] => []
  | PushConsole item :: rest => item :: console_pushes rest
  | _ :: rest => console_pushes rest
  end.

Fixpoint file_pushes (es : list event) : list (string * string) :=
  match es with
  | [] => []
  | PushFile item :: rest => item :: file_pushes rest
  | _ :: rest => file_pushes rest
  end.

(** [extends g g']: from [g] to [g'] both queues only grew, at their ends
    and by the same strings. *)
Definition extends (g g' : Globals) : Prop :=
  exists l : list (string * string),
    g_fileLogQueue g' = g_fileLogQueue g ++ l /\
    g_consoleLogQueue g' = g_consoleLogQueue g ++ map snd l.

(** The order of shutdown: no worker is past its loop, and the destructor
    not begun, while the stop flag is clear; the destructor has passed the
    [join] of a thread only if that thread is past its loop. *)
Definition shutdown_order (s : Logger) : bool :=
  let e0 := has_exited (console_thread s) in
  let e1 := has_exited (file_thread1 s) in
  let e2 := has_exited (file_thread2 s) in
  match dtor s with
  | NotEntered => negb (s_bStopWorkers s) && negb (e0 || e1 || e2)
  | Joining 0 => s_bStopWorkers s
  | Joining 1 => s_bStopWorkers s && e0
  | Joining 2 => s_bStopWorkers s && e0 && e1
  | Joining _ => false
  | Destroyed => s_bStopWorkers s && e0 && e1 && e2
  end.


(** * Properties *)

(** ** Strings *)

Lemma append_cons (c : ascii) (s1 s2 : string) :
  String c s1 +:+ s2 = String c (s1 +:+ s2).
Proof. reflexivity. Qed.

Lemma append_nil_l (s : string) : "" +:+ s = s.
Proof. reflexivity. Qed.

Lemma append_assoc (s1 s2 s3 : string) :
  (s1 +:+ s2) +:+ s3 = s1 +:+ (s2 +:+ s3).
Proof.
  induction s1 as [|c s1 IH]; [reflexivity|].
  rewrite !append_cons. now f_equal.
Qed.

Lemma append_nil_r (s : string) : s +:+ "" = s.
Proof.
  induction s as [|c s IH]; [reflexivity|].
  rewrite append_cons. now f_equal.
Qed.

Lemma wire_tail_app (r : list string) (cmd : string) :
  wire_tail (r ++ [cmd]) = wire_tail r +:+ ", " +:+ cmd.
Proof.
  induction r as [|c r IH]; simpl.
  - now rewrite append_nil_r.
  - rewrite IH. now rewrite !append_assoc.
Qed.

(** The stream writes of [process] extend the wire format by one command. *)
Lemma wire_format_snoc (p : list string) (cmd : string) :
  wire_format (p ++ [cmd]) =
  (if 0 <? Z.of_nat (length p) then wire_format p +:+ "," else wire_format p)
    +:+ " " +:+ cmd.
Proof.
  destruct p as [|c p]; simpl length.
  - simpl. now rewrite append_nil_r.
  - replace (0 <? Z.of_nat (S (length p))) with true
      by (symmetry; apply Z.ltb_lt; lia).
    cbn [app wire_format]. rewrite wire_tail_app.
    now rewrite !append_assoc.
Qed.

(** ** Queues *)

Lemma pushed_refl (g : Globals) : pushed g g [].
Proof. unfold pushed. rewrite !app_nil_r. simpl. auto with arith. Qed.

Lemma pushed_trans (g g1 g2 : Globals) (l1 l2 : list string) :
  pushed g g1 l1 -> pushed g1 g2 l2 -> pushed g g2 (l1 ++ l2).
Proof.
  intros (Hc1 & Hf1 & Hn1) (Hc2 & Hf2 & Hn2). unfold pushed.
  rewrite Hc2, Hc1, Hf2, Hf1, Hn2, Hn1, !app_assoc, length_app.
  repeat split; lia.
Qed.

Lemma pushed_std_time (g : Globals) : pushed g (std_time g).2 [].
Proof. unfold pushed. simpl. rewrite !app_nil_r. auto with arith. Qed.

(** ** [log], [flush] and [push_cmd] on a buffer holding [p] *)

Lemma pending_positive (b : Bulk) (p : list string) :
  pending b p -> (0 <? m_nCmds b) = negb (Nat.eqb (length p) 0).
Proof.
  intros [_ Hn]. rewrite Hn. destruct p; simpl length; [reflexivity|].
  simpl. apply Z.ltb_lt. lia.
Qed.

Lemma pending_ctor (capacity : Z) (g : Globals) :
  pending (Bulk_ctor capacity g).1 [].
Proof. split; reflexivity. Qed.

Lemma log_pending (b : Bulk) (g : Globals) (p : list string) :
  pending b p ->
  pending (log b g).1 [] /\
  m_nestingLvl (log b g).1 = 0 /\
  m_buffer_size (log b g).1 = m_buffer_size b /\
  pushed g (log b g).2 (map wire_format (batch_of p)).
Proof.
  intros Hp. unfold log. rewrite (pending_positive b p Hp).
  destruct Hp as [Hs Hn].
  repeat split; try reflexivity; destruct p as [|c p]; simpl;
    rewrite ?app_nil_r, ?map_app, ?length_app, ?Hs; simpl; auto with arith.
Qed.

Lemma flush_pending (b : Bulk) (g : Globals) (p : list string) :
  pending b p -> m_nestingLvl b = 0 ->
  pending (flush b g).1 [] /\
  m_nestingLvl (flush b g).1 = 0 /\
  m_buffer_size (flush b g).1 = m_buffer_size b /\
  pushed g (flush b g).2 (map wire_format (batch_of p)).
Proof.
  intros Hp Hd. unfold flush. rewrite Hd. simpl. now apply log_pending.
Qed.

(** A flush below or above nesting level zero does nothing at all. *)
Lemma flush_gated (b : Bulk) (g : Globals) :
  m_nestingLvl b <> 0 -> flush b g = (b, g).
Proof.
  intros Hd. unfold flush.
  destruct (Z.eqb_spec (m_nestingLvl b) 0); [contradiction | reflexivity].
Qed.

Lemma push_cmd_pending (cmd : string) (b : Bulk) (g : Globals) (p : list string) :
  pending b p -> Z.of_nat (length p) + 1 < SIZE_MOD ->
  pending (push_cmd cmd b g).1 (p ++ [cmd]) /\
  m_nestingLvl (push_cmd cmd b g).1 = m_nestingLvl b /\
  m_buffer_size (push_cmd cmd b g).1 = m_buffer_size b /\
  pushed g (push_cmd cmd b g).2 [].
Proof.
  intros [Hs Hn] Hlt. unfold push_cmd, pending.
  rewrite wire_format_snoc, length_app, Nat2Z.inj_add. simpl length.
  rewrite Hn.
  destruct (0 <? Z.of_nat (length p)); simpl;
    unfold size_incr; rewrite Hs, Hn, Z.mod_small by lia;
    repeat split; simpl; rewrite ?app_nil_r; auto with arith.
Qed.

(** ** One call of [process] against the pending list *)

Lemma int_incr_ok (n : Z) : n < INT_MAX -> int_incr n = Ok (n + 1).
Proof.
  intros H. unfold int_incr.
  destruct (Z.ltb_spec n INT_MAX); [reflexivity | lia].
Qed.

Lemma int_decr_ok (n : Z) : INT_MIN < n -> int_decr n = Ok (n - 1).
Proof.
  intros H. unfold int_decr.
  destruct (Z.ltb_spec INT_MIN n); [reflexivity | lia].
Qed.

Lemma pending_set_nestingLvl (b : Bulk) (p : list string) (d : Z) :
  pending b p -> pending (set_nestingLvl b d) p.
Proof. intros H. exact H. Qed.

Lemma process_refines (cmd : string) (b : Bulk) (g : Globals) (p : list string) :
  pending b p ->
  (plain cmd = true -> Z.of_nat (length p) + 1 < SIZE_MOD) ->
  (plain cmd = false -> INT_MIN < m_nestingLvl b < INT_MAX) ->
  exists b' g',
    process cmd b g = Ok (b', g') /\
    pending b' (abs_step (m_buffer_size b) cmd (p, m_nestingLvl b)).1.1 /\
    m_nestingLvl b' = (abs_step (m_buffer_size b) cmd (p, m_nestingLvl b)).1.2 /\
    m_buffer_size b' = m_buffer_size b /\
    pushed g g' (map wire_format (abs_step (m_buffer_size b) cmd (p, m_nestingLvl b)).2).
Proof.
  intros Hp Hlen Hrange. unfold process, abs_step. unfold plain in Hlen, Hrange.
  destruct (String.eqb cmd "{").
  - (* open marker *)
    destruct (Hrange eq_refl) as [Hlo Hhi].
    destruct (Z.eqb_spec (m_nestingLvl b) 0) as [Hd|Hd].
    + destruct (flush_pending b g p Hp Hd) as (Hp1 & Hd1 & Hc1 & Hq1).
      destruct (flush b g) as [b1 g1]. simpl in *.
      rewrite Hd1. exists (set_nestingLvl b1 1), g1.
      repeat split; auto; apply Hp1 || apply Hq1.
    + rewrite (int_incr_ok _ Hhi). simpl.
      exists (set_nestingLvl b (m_nestingLvl b + 1)), g.
      repeat split; auto; apply Hp || apply pushed_refl.
  - destruct (String.eqb cmd "}").
    + (* close marker *)
      destruct (Hrange eq_refl) as [Hlo Hhi].
      rewrite (int_decr_ok _ Hlo). simpl.
      destruct (Z.eqb_spec (m_nestingLvl b - 1) 0) as [Hd|Hd].
      * pose proof (flush_pending (set_nestingLvl b (m_nestingLvl b - 1)) g p
                      (pending_set_nestingLvl _ _ _ Hp) Hd) as (Hp1 & Hd1 & Hc1 & Hq1).
        destruct (flush _ g) as [b1 g1]. simpl in *.
        exists b1, g1. repeat split; auto; apply Hp1 || apply Hq1.
      * exists (set_nestingLvl b (m_nestingLvl b - 1)), g.
        repeat split; auto; apply Hp || apply pushed_refl.
    + (* plain command *)
      destruct (push_cmd_pending cmd b g p Hp (Hlen eq_refl)) as (Hp1 & Hd1 & Hc1 & Hq1).
      destruct (push_cmd cmd b g) as [b1 g1]. simpl in *.
      destruct Hp1 as [Hs1 Hn1]. rewrite Hn1, Hc1, Hd1.
      destruct ((Z.of_nat (length (p ++ [cmd])) =? m_buffer_size b)
                && (m_nestingLvl b =? 0)) eqn:Hcond.
      * apply andb_true_iff in Hcond as [_ Hz]. apply Z.eqb_eq in Hz.
        assert (Hd0 : m_nestingLvl b1 = 0) by congruence.
        destruct (flush_pending b1 g1 (p ++ [cmd]) (conj Hs1 Hn1) Hd0)
          as (Hp2 & Hd2 & Hc2 & Hq2).
        destruct (flush b1 g1) as [b2 g2]. simpl in *.
        exists b2, g2. repeat split; try apply Hp2; try congruence;
          eapply (pushed_trans _ _ _ []); eauto.
      * exists b1, g1. repeat split; auto; apply Hq1.
Qed.

(** ** The pending-list view of a run *)

Lemma plain_cmds_cons (cmd : string) (cmds : list string) :
  plain_cmds (cmd :: cmds) = if plain cmd then cmd :: plain_cmds cmds else plain_cmds cmds.
Proof. reflexivity. Qed.

Lemma markers_cons (cmd : string) (cmds : list string) :
  markers (cmd :: cmds) = if plain cmd then markers cmds else cmd :: markers cmds.
Proof. unfold markers. simpl. now destruct (plain cmd). Qed.

Lemma batch_of_length (p : list string) :
  (length (concat (batch_of p)) = length p)%nat.
Proof. destruct p; simpl; rewrite ?app_nil_r; reflexivity. Qed.

Lemma batch_of_concat (p : list string) : concat (batch_of p) = p.
Proof. destruct p; simpl; rewrite ?app_nil_r; reflexivity. Qed.

Lemma batch_of_nonempty (p : list string) : Forall (fun l => l <> []) (batch_of p).
Proof. destruct p; simpl; constructor; [discriminate | constructor]. Qed.

(** One abstract step neither loses nor reorders commands, and moves the
    nesting level by what the command asks for. *)
Lemma abs_step_spec (capacity : Z) (cmd : string) (p : list string) (d : Z) :
  let r := abs_step capacity cmd (p, d) in
  concat r.2 ++ r.1.1 = p ++ (if plain cmd then [cmd] else []) /\
  r.1.2 = d + delta cmd /\
  Forall (fun l => l <> []) r.2.
Proof.
  unfold abs_step, plain, delta.
  destruct (String.eqb cmd "{"); [|destruct (String.eqb cmd "}")]; simpl.
  - destruct (Z.eqb_spec d 0); simpl;
      rewrite ?batch_of_concat, ?app_nil_r; repeat split;
      auto using batch_of_nonempty; lia.
  - destruct (Z.eqb_spec (d - 1) 0); simpl;
      rewrite ?batch_of_concat, ?app_nil_r; repeat split;
      auto using batch_of_nonempty; lia.
  - destruct (Z.eqb_spec (Z.of_nat (length (p ++ [cmd]))) capacity);
      destruct (Z.eqb_spec d 0); simpl;
      rewrite ?batch_of_concat, ?app_nil_r; repeat split;
      auto using batch_of_nonempty; lia.
Qed.

Lemma abs_run_spec (capacity : Z) (cmds : list string) :
  forall (p : list string) (d : Z),
    let r := abs_run capacity cmds (p, d) in
    concat r.2 ++ r.1.1 = p ++ plain_cmds cmds /\
    r.1.2 = depth_after d cmds /\
    Forall (fun l => l <> []) r.2.
Proof.
  induction cmds as [|cmd cmds IH]; intros p d.
  - simpl. rewrite app_nil_r. repeat split; constructor.
  - cbn [abs_run depth_after].
    pose proof (abs_step_spec capacity cmd p d) as (Hc & Hd & Hne).
    destruct (abs_step capacity cmd (p, d)) as [[p1 d1] out1]. simpl in *.
    specialize (IH p1 d1).
    destruct (abs_run capacity cmds (p1, d1)) as [[p2 d2] out2]. simpl in *.
    destruct IH as (Hc2 & Hd2 & Hne2).
    rewrite concat_app, <- app_assoc, Hc2, app_assoc, Hc.
    subst d1. repeat split; auto.
    + fold (plain_cmds cmds).
      destruct (plain cmd); simpl; rewrite <- ?app_assoc; reflexivity.
    + apply Forall_app; auto.
Qed.

Lemma delta_bound (cmd : string) :
  Z.abs (delta cmd) = if plain cmd then 0 else 1.
Proof.
  unfold delta, plain.
  destruct (String.eqb cmd "{"); [reflexivity|].
  destruct (String.eqb cmd "}"); reflexivity.
Qed.

(** A run of [process] follows the pending-list view as long as the
    command count fits [size_t] and the nesting level fits [int]. *)
Lemma process_all_refines (cmds : list string) :
  forall (b : Bulk) (g : Globals) (p : list string),
    pending b p ->
    Z.of_nat (length p) + Z.of_nat (length (plain_cmds cmds)) < SIZE_MOD ->
    Z.abs (m_nestingLvl b) + Z.of_nat (length (markers cmds)) <= INT_MAX ->
    exists b' g',
      process_all cmds b g = Ok (b', g') /\
      pending b' (abs_run (m_buffer_size b) cmds (p, m_nestingLvl b)).1.1 /\
      m_nestingLvl b' = (abs_run (m_buffer_size b) cmds (p, m_nestingLvl b)).1.2 /\
      m_buffer_size b' = m_buffer_size b /\
      pushed g g' (map wire_format (abs_run (m_buffer_size b) cmds (p, m_nestingLvl b)).2).
Proof.
  induction cmds as [|cmd cmds IH]; intros b g p Hp Hlen Hdep.
  - exists b, g. simpl. repeat split; auto; apply Hp || apply pushed_refl.
  - rewrite plain_cmds_cons in Hlen. rewrite markers_cons in Hdep.
    cbn [process_all abs_run].
    destruct (process_refines cmd b g p Hp) as (b1 & g1 & Hstep & Hp1 & Hd1 & Hc1 & Hq1).
    { intros Hpl. rewrite Hpl in Hlen. simpl length in Hlen. lia. }
    { intros Hpl. rewrite Hpl in Hdep. simpl length in Hdep.
      unfold INT_MIN, INT_MAX in *. lia. }
    pose proof (abs_step_spec (m_buffer_size b) cmd p (m_nestingLvl b)) as (Hcat & Hdelta & _).
    pose proof (delta_bound cmd) as Hdb.
    destruct (abs_step (m_buffer_size b) cmd (p, m_nestingLvl b)) as [[p1 d1] out1].
    simpl in Hp1, Hd1, Hq1, Hcat, Hdelta.
    assert (Hl1 : (length (concat out1) + length p1 =
                   length p + length (if plain cmd then [cmd] else []))%nat)
      by (rewrite <- !length_app; now f_equal).
    rewrite Hstep. simpl.
    destruct (IH b1 g1 p1 Hp1) as (b2 & g2 & Hrun & Hp2 & Hd2 & Hc2 & Hq2).
    { destruct (plain cmd); simpl length in *; lia. }
    { rewrite Hd1, Hdelta. destruct (plain cmd); simpl length in *; lia. }
    rewrite Hc1, Hd1 in *.
    destruct (abs_run (m_buffer_size b) cmds (p1, d1)) as [[p2 d2] out2].
    simpl in *. exists b2, g2. rewrite map_app.
    repeat split; try apply Hp2; auto; try congruence;
      eapply pushed_trans; eauto.
Qed.

Lemma abs_run_app (capacity : Z) (l1 l2 : list string) (st : list string * Z) :
  abs_run capacity (l1 ++ l2) st =
  let '(st1, out1) := abs_run capacity l1 st in
  let '(st2, out2) := abs_run capacity l2 st1 in
  (st2, out1 ++ out2).
Proof.
  revert st. induction l1 as [|cmd l1 IH]; intros st.
  - simpl. now destruct (abs_run capacity l2 st).
  - cbn [app abs_run]. destruct (abs_step capacity cmd st) as [st1 out1].
    rewrite IH. destruct (abs_run capacity l1 st1) as [st2 out2].
    destruct (abs_run capacity l2 st2) as [st3 out3].
    now rewrite app_assoc.
Qed.

Lemma process_all_app (l1 l2 : list string) (b : Bulk) (g : Globals) :
  process_all (l1 ++ l2) b g =
  '(b1, g1) ← process_all l1 b g; process_all l2 b1 g1.
Proof.
  revert b g. induction l1 as [|cmd l1 IH]; intros b g.
  - reflexivity.
  - cbn [app process_all]. destruct (process cmd b g) as [[b1 g1]|]; simpl.
    + apply IH.
    + reflexivity.
Qed.

Lemma plain_not_open (cmd : string) : plain cmd = true -> String.eqb cmd "{" = false.
Proof. unfold plain. destruct (String.eqb cmd "{"); [discriminate | reflexivity]. Qed.

Lemma plain_not_close (cmd : string) : plain cmd = true -> String.eqb cmd "}" = false.
Proof.
  unfold plain. destruct (String.eqb cmd "{"); [discriminate|].
  destruct (String.eqb cmd "}"); [discriminate | reflexivity].
Qed.

(** Plain commands that stop exactly at the threshold leave as one batch. *)
Lemma abs_run_chunk (capacity : Z) (l : list string) :
  forall p : list string,
    forallb plain l = true -> l <> [] ->
    Z.of_nat (length p + length l) = capacity ->
    abs_run capacity l (p, 0) = (([], 0), [p ++ l]).
Proof.
  induction l as [|cmd l IH]; intros p Hpl Hne Hlen; [contradiction|].
  simpl in Hpl. apply andb_true_iff in Hpl as [Hc Hl].
  cbn [abs_run]. unfold abs_step.
  rewrite (plain_not_open _ Hc), (plain_not_close _ Hc), length_app.
  simpl length in *. destruct l as [|cmd' l].
  - replace (Z.of_nat (length p + 1) =? capacity) with true
      by (symmetry; apply Z.eqb_eq; simpl length in *; lia).
    simpl. destruct p; reflexivity.
  - replace (Z.of_nat (length p + 1) =? capacity) with false
      by (symmetry; apply Z.eqb_neq; simpl length in *; lia).
    cbn [andb].
    assert (Hlen' : Z.of_nat (length (p ++ [cmd]) + length (cmd' :: l)) = capacity)
      by (rewrite length_app; simpl length in *; lia).
    rewrite (IH (p ++ [cmd]) Hl ltac:(discriminate) Hlen').
    now rewrite <- app_assoc.
Qed.

(** With threshold zero plain commands only accumulate. *)
Lemma abs_run_capacity_zero (l : list string) :
  forall (p : list string) (d : Z),
    forallb plain l = true ->
    abs_run 0 l (p, d) = ((p ++ l, d), []).
Proof.
  induction l as [|cmd l IH]; intros p d Hpl.
  - simpl. now rewrite app_nil_r.
  - simpl in Hpl. apply andb_true_iff in Hpl as [Hc Hl].
    cbn [abs_run]. unfold abs_step.
    rewrite (plain_not_open _ Hc), (plain_not_close _ Hc), length_app.
    replace (Z.of_nat (length p + length [cmd]) =? 0) with false
      by (symmetry; apply Z.eqb_neq; simpl length; lia).
    cbn [andb]. rewrite IH by assumption. now rewrite <- app_assoc.
Qed.

(** Inside a block nothing leaves, whatever the threshold. *)
Lemma abs_run_inside_block (capacity : Z) (pre : list string) :
  forall (suf : list string) (n : nat) (p : list string),
    balanced_from n (pre ++ suf) = true ->
    exists m : nat,
      abs_run capacity pre (p, Z.of_nat n + 1) =
        ((p ++ plain_cmds pre, Z.of_nat m + 1), []) /\
      balanced_from m suf = true.
Proof.
  induction pre as [|cmd pre IH]; intros suf n p Hb.
  - exists n. simpl. now rewrite app_nil_r.
  - cbn [app balanced_from] in Hb. cbn [abs_run]. unfold abs_step.
    rewrite plain_cmds_cons. unfold plain.
    destruct (String.eqb cmd "{").
    + replace (Z.of_nat n + 1 =? 0) with false by (symmetry; apply Z.eqb_neq; lia).
      destruct (IH suf (S n) p Hb) as (m & Hrun & Hm).
      replace (Z.of_nat n + 1 + 1) with (Z.of_nat (S n) + 1) by lia.
      rewrite Hrun. now exists m.
    + destruct (String.eqb cmd "}").
      * destruct n as [|n]; [discriminate|].
        replace (Z.of_nat (S n) + 1 - 1 =? 0) with false
          by (symmetry; apply Z.eqb_neq; lia).
        destruct (IH suf n p Hb) as (m & Hrun & Hm).
        replace (Z.of_nat (S n) + 1 - 1) with (Z.of_nat n + 1) by lia.
        rewrite Hrun. now exists m.
      * replace (Z.of_nat n + 1 =? 0) with false by (symmetry; apply Z.eqb_neq; lia).
        rewrite andb_false_r.
        destruct (IH suf n (p ++ [cmd]) Hb) as (m & Hrun & Hm).
        rewrite Hrun. exists m. simpl. now rewrite <- app_assoc.
Qed.

Lemma plain_cmds_all (l : list string) :
  forallb plain l = true -> plain_cmds l = l /\ markers l = [].
Proof.
  induction l as [|cmd l IH]; intros H; [split; reflexivity|].
  simpl in H. apply andb_true_iff in H as [Hc Hl].
  destruct (IH Hl) as [IH1 IH2].
  rewrite plain_cmds_cons, markers_cons, Hc, IH1, IH2. now split.
Qed.

Lemma plain_cmds_app (l1 l2 : list string) :
  plain_cmds (l1 ++ l2) = plain_cmds l1 ++ plain_cmds l2.
Proof. apply List.filter_app. Qed.

Lemma markers_app (l1 l2 : list string) :
  markers (l1 ++ l2) = markers l1 ++ markers l2.
Proof. apply List.filter_app. Qed.

(** The constructor and [log] leave an empty buffer at nesting level zero,
    whatever came before. *)
Lemma log_resets (b : Bulk) (g : Globals) :
  pending (log b g).1 [] /\ m_nestingLvl (log b g).1 = 0 /\
  m_buffer_size (log b g).1 = m_buffer_size b.
Proof. unfold log. destruct (0 <? m_nCmds b); repeat split. Qed.

Lemma pushed_ctor (capacity : Z) (g : Globals) :
  pushed g (Bulk_ctor capacity g).2 [].
Proof. apply pushed_std_time. Qed.

(** ** C1: the wire format on both queues *)

(** C1.  Run a session on any command sequence (within the ranges of
    [size_t] and [int]).  Everything pushed so far is, on the console queue
    and as file contents alike, the wire format of consecutive non-empty
    groups [batches] of the plain commands in arrival order; the commands
    not yet handed over are [p]; and a flush at that point pushes the wire
    format of [p] to both queues when [p] is non-empty and the nesting
    level is zero, and nothing to either queue otherwise. *)
Theorem flush_wire_format (capacity : Z) (g0 : Globals) (cmds : list string) :
  Z.of_nat (length (plain_cmds cmds)) < SIZE_MOD ->
  Z.of_nat (length (markers cmds)) <= INT_MAX ->
  exists (b : Bulk) (g : Globals) (batches : list (list string)) (p : list string),
    process_all cmds (Bulk_ctor capacity g0).1 (Bulk_ctor capacity g0).2 = Ok (b, g) /\
    pushed g0 g (map wire_format batches) /\
    Forall (fun l => l <> []) batches /\
    concat batches ++ p = plain_cmds cmds /\
    pushed g (flush b g).2
      (if m_nestingLvl b =? 0 then map wire_format (batch_of p) else []).
Proof.
  intros Hlen Hdep.
  destruct (process_all_refines cmds (Bulk_ctor capacity g0).1 (Bulk_ctor capacity g0).2 []
              (pending_ctor capacity g0))
    as (b & g & Hrun & Hp & Hd & Hc & Hq); [simpl; lia | simpl; lia |].
  pose proof (abs_run_spec (m_buffer_size (Bulk_ctor capacity g0).1) cmds []
                (m_nestingLvl (Bulk_ctor capacity g0).1)) as (Hcat & _ & Hne).
  destruct (abs_run _ cmds _) as [[p d] out]. simpl in Hp, Hd, Hq, Hcat, Hne.
  exists b, g, out, p. repeat split; try apply Hne; try exact Hrun; try exact Hcat;
    try (apply (pushed_trans g0 _ g [] _ (pushed_ctor capacity g0) Hq)).
  all: destruct (Z.eqb_spec (m_nestingLvl b) 0) as [Hz|Hz];
    [ apply (flush_pending b g p Hp Hz)
    | rewrite (flush_gated b g Hz); apply pushed_refl ].
Qed.

Lemma flush_wire_format_witness :
  Z.of_nat (length (plain_cmds ["a"; "{"; "b"; "c"; "}"; "d"])) < SIZE_MOD /\
  Z.of_nat (length (markers ["a"; "{"; "b"; "c"; "}"; "d"])) <= INT_MAX /\
  exists (b : Bulk) (g : Globals) (batches : list (list string)) (p : list string),
    process_all ["a"; "{"; "b"; "c"; "}"; "d"]
      (Bulk_ctor 3 (mkGlobals (fun _ => 1700000000) 0 0 [] [])).1
      (Bulk_ctor 3 (mkGlobals (fun _ => 1700000000) 0 0 [] [])).2 = Ok (b, g) /\
    pushed (mkGlobals (fun _ => 1700000000) 0 0 [] []) g (map wire_format batches) /\
    Forall (fun l => l <> []) batches /\
    concat batches ++ p = plain_cmds ["a"; "{"; "b"; "c"; "}"; "d"] /\
    pushed g (flush b g).2
      (if m_nestingLvl b =? 0 then map wire_format (batch_of p) else []).
Proof.
  split; [vm_compute; reflexivity|].
  split; [vm_compute; discriminate|].
  apply flush_wire_format; [vm_compute; reflexivity | vm_compute; discriminate].
Defined.

(** ** C3: threshold batching of plain commands *)

(** One full group of plain commands leaves as one batch. *)
Lemma process_chunk (l : list string) (b : Bulk) (g : Globals) :
  pending b [] -> m_nestingLvl b = 0 ->
  forallb plain l = true -> l <> [] ->
  Z.of_nat (length l) = m_buffer_size b -> m_buffer_size b < SIZE_MOD ->
  exists b' g',
    process_all l b g = Ok (b', g') /\
    pending b' [] /\ m_nestingLvl b' = 0 /\ m_buffer_size b' = m_buffer_size b /\
    pushed g g' [wire_format l].
Proof.
  intros Hp Hd Hpl Hne Hlen Hcap.
  destruct (plain_cmds_all l Hpl) as [Hpc Hmk].
  destruct (process_all_refines l b g [] Hp) as (b' & g' & Hrun & Hp' & Hd' & Hc' & Hq');
    [rewrite Hpc; simpl length; lia | rewrite Hmk, Hd; simpl; unfold INT_MAX; lia |].
  rewrite Hd, (abs_run_chunk (m_buffer_size b) l [] Hpl Hne) in * by (simpl; lia).
  exists b', g'. simpl in *. auto.
Qed.

Lemma process_chunks (n : nat) :
  forall (cmds : list string) (b : Bulk) (g : Globals),
    pending b [] -> m_nestingLvl b = 0 ->
    1 <= m_buffer_size b < SIZE_MOD ->
    forallb plain cmds = true ->
    Z.of_nat (length cmds) = Z.of_nat n * m_buffer_size b ->
    exists b' g' (batches : list (list string)),
      process_all cmds b g = Ok (b', g') /\
      pending b' [] /\ m_nestingLvl b' = 0 /\ m_buffer_size b' = m_buffer_size b /\
      pushed g g' (map wire_format batches) /\
      concat batches = cmds /\
      Forall (fun l => Z.of_nat (length l) = m_buffer_size b) batches /\
      length batches = n.
Proof.
  induction n as [|n IH]; intros cmds b g Hp Hd Hcap Hpl Hlen.
  - destruct cmds; [|simpl length in Hlen; lia].
    exists b, g, []. simpl. repeat split; auto; apply Hp || apply pushed_refl.
  - set (c := Z.to_nat (m_buffer_size b)).
    assert (Hc : Z.of_nat c = m_buffer_size b) by (subst c; lia).
    assert (Hge : (c <= length cmds)%nat) by nia.
    rewrite <- (take_drop c cmds) in Hpl |- *.
    rewrite forallb_app in Hpl. apply andb_true_iff in Hpl as [Hpl1 Hpl2].
    assert (Hl1 : length (take c cmds) = c) by (rewrite length_take; lia).
    destruct (process_chunk (take c cmds) b g Hp Hd Hpl1)
      as (b1 & g1 & Hrun1 & Hp1 & Hd1 & Hc1 & Hq1); try lia.
    { intros E. rewrite E in Hl1. simpl in Hl1. lia. }
    destruct (IH (drop c cmds) b1 g1 Hp1 Hd1)
      as (b2 & g2 & batches & Hrun2 & Hp2 & Hd2 & Hc2 & Hq2 & Hcat & Hall & Hn);
      try rewrite Hc1; auto.
    { rewrite length_drop. nia. }
    exists b2, g2, (take c cmds :: batches).
    rewrite process_all_app, Hrun1. simpl. rewrite Hrun2, Hcat.
    repeat split; try apply Hp2; try congruence.
    1-3: apply (pushed_trans g g1 g2 [_] _ Hq1); exact Hq2.
    constructor; [lia|]. now rewrite <- Hc1.
Qed.

(** C3.  A session of capacity [C >= 1] that processes [k] plain commands,
    [k] a multiple of [C], pushes exactly [k / C] batches, each of exactly
    [C] commands; read one after the other the batches are the commands in
    arrival order. *)
Theorem threshold_batches (capacity : Z) (g0 : Globals) (cmds : list string) :
  1 <= capacity < SIZE_MOD ->
  forallb plain cmds = true ->
  Z.of_nat (length cmds) mod capacity = 0 ->
  exists (b : Bulk) (g : Globals) (batches : list (list string)),
    process_all cmds (Bulk_ctor capacity g0).1 (Bulk_ctor capacity g0).2 = Ok (b, g) /\
    pushed g0 g (map wire_format batches) /\
    concat batches = cmds /\
    Forall (fun l => Z.of_nat (length l) = capacity) batches /\
    Z.of_nat (length batches) = Z.of_nat (length cmds) / capacity.
Proof.
  intros Hcap Hpl Hmod.
  apply Z.mod_divide in Hmod; [|lia]. destruct Hmod as [q Hq].
  assert (Hq0 : 0 <= q) by nia.
  destruct (process_chunks (Z.to_nat q) cmds (Bulk_ctor capacity g0).1
              (Bulk_ctor capacity g0).2 (pending_ctor capacity g0) eq_refl)
    as (b & g & batches & Hrun & _ & _ & _ & Hpush & Hcat & Hall & Hn);
    simpl; auto; [lia|].
  exists b, g, batches. repeat split; auto;
    try apply (pushed_trans g0 _ g [] _ (pushed_ctor capacity g0) Hpush).
  rewrite Hn, Hq, Z.div_mul by lia. lia.
Qed.

Lemma threshold_batches_witness :
  1 <= 2 < SIZE_MOD /\
  forallb plain ["a"; "b"; "c"; "d"] = true /\
  Z.of_nat (length ["a"; "b"; "c"; "d"]) mod 2 = 0 /\
  exists (b : Bulk) (g : Globals) (batches : list (list string)),
    process_all ["a"; "b"; "c"; "d"]
      (Bulk_ctor 2 (mkGlobals (fun _ => 1700000000) 0 0 [] [])).1
      (Bulk_ctor 2 (mkGlobals (fun _ => 1700000000) 0 0 [] [])).2 = Ok (b, g) /\
    pushed (mkGlobals (fun _ => 1700000000) 0 0 [] []) g (map wire_format batches) /\
    concat batches = ["a"; "b"; "c"; "d"] /\
    Forall (fun l => Z.of_nat (length l) = 2) batches /\
    Z.of_nat (length batches) = Z.of_nat (length ["a"; "b"; "c"; "d"]) / 2.
Proof.
  split; [unfold SIZE_MOD; lia|].
  split; [reflexivity|].
  split; [reflexivity|].
  apply threshold_batches; [unfold SIZE_MOD; lia | reflexivity | reflexivity].
Defined.

(** ** C2: a block is one batch *)

Lemma filter_length_app_le (f : string -> bool) (pre suf : list string) :
  (length (List.filter f pre) <= length (List.filter f (pre ++ suf)))%nat.
Proof. rewrite List.filter_app, length_app. lia. Qed.

(** An open marker at nesting level zero leaves an empty buffer at level
    one. *)
Lemma process_open_at_zero (b : Bulk) (g : Globals) :
  m_nestingLvl b = 0 ->
  exists b0 g0,
    process "{" b g = Ok (b0, g0) /\ pending b0 [] /\ m_nestingLvl b0 = 1 /\
    m_buffer_size b0 = m_buffer_size b.
Proof.
  intros Hd. destruct (log_resets b g) as (Hp & Hd1 & Hc).
  exists (set_nestingLvl (log b g).1 1), (log b g).2. split.
  - unfold process, flush. rewrite Hd.
    change (String.eqb "{" "{") with true. change (0 =? 0) with true. cbv iota.
    destruct (log b g) as [b1 g1]. cbn [fst snd] in *. now rewrite Hd1.
  - repeat split; auto; apply Hp.
Qed.

(** Inside a block that was opened on an empty buffer, every prefix of the
    body accumulates and pushes nothing. *)
Lemma process_inside_block (pre suf : list string) (b0 : Bulk) (g0 : Globals) :
  pending b0 [] -> m_nestingLvl b0 = 1 ->
  balanced_from 0 (pre ++ suf) = true ->
  Z.of_nat (length (plain_cmds (pre ++ suf))) < SIZE_MOD ->
  Z.of_nat (length (markers (pre ++ suf))) + 2 <= INT_MAX ->
  exists (b1 : Bulk) (g1 : Globals) (m : nat),
    process_all pre b0 g0 = Ok (b1, g1) /\
    pending b1 (plain_cmds pre) /\
    m_nestingLvl b1 = Z.of_nat m + 1 /\
    m_buffer_size b1 = m_buffer_size b0 /\
    balanced_from m suf = true /\
    pushed g0 g1 [].
Proof.
  intros Hp Hd Hbal Hlen Hdep.
  pose proof (filter_length_app_le plain pre suf) as Hle1.
  pose proof (filter_length_app_le (fun c => negb (plain c)) pre suf) as Hle2.
  fold (plain_cmds pre) (plain_cmds (pre ++ suf)) in Hle1.
  fold (markers pre) (markers (pre ++ suf)) in Hle2.
  destruct (process_all_refines pre b0 g0 [] Hp) as (b1 & g1 & Hrun & Hp1 & Hd1 & Hc1 & Hq1);
    [simpl length; lia | rewrite Hd; simpl Z.abs; lia |].
  destruct (abs_run_inside_block (m_buffer_size b0) pre suf 0 [] Hbal) as (m & Habs & Hm).
  rewrite Hd in *. change (Z.of_nat 0 + 1) with 1 in Habs. rewrite Habs in *.
  simpl in *. exists b1, g1, m. auto 10.
Qed.

(** C2.  Let a session at nesting level zero receive an open marker, a
    body that closes every block it opens and holds at least one plain
    command, and the matching close marker.  Whatever the capacity, what is
    pushed after the open marker has been processed is exactly one batch,
    the plain commands of the body in order; it is pushed by the outermost
    close marker, which brings the level back to zero; after every prefix
    of the body nothing has been pushed and the level is above zero. *)
Theorem block_is_one_batch (b : Bulk) (g : Globals) (body : list string) :
  m_nestingLvl b = 0 ->
  block_body body = true ->
  plain_cmds body <> [] ->
  Z.of_nat (length (plain_cmds body)) < SIZE_MOD ->
  Z.of_nat (length (markers body)) + 2 <= INT_MAX ->
  exists (b0 : Bulk) (g0 : Globals) (b' : Bulk) (g' : Globals),
    process "{" b g = Ok (b0, g0) /\
    process_all (body ++ ["}"]) b0 g0 = Ok (b', g') /\
    pushed g0 g' [wire_format (plain_cmds body)] /\
    m_nestingLvl b' = 0 /\
    forall pre suf : list string, body = pre ++ suf ->
      exists (b1 : Bulk) (g1 : Globals),
        process_all pre b0 g0 = Ok (b1, g1) /\
        pushed g0 g1 [] /\
        0 < m_nestingLvl b1.
Proof.
  intros Hd Hbal Hne Hlen Hdep. unfold block_body in Hbal.
  destruct (process_open_at_zero b g Hd) as (b0 & g0 & Hopen & Hp0 & Hd0 & Hc0).
  assert (Hbal' : balanced_from 0 (body ++ []) = true) by now rewrite app_nil_r.
  destruct (process_inside_block body [] b0 g0 Hp0 Hd0 Hbal')
    as (b1 & g1 & m & Hrun & Hp1 & Hd1 & Hc1 & Hm & Hq1);
    rewrite ?app_nil_r; auto.
  simpl in Hm. apply Nat.eqb_eq in Hm. subst m. simpl in Hd1.
  destruct (process_refines "}" b1 g1 (plain_cmds body) Hp1)
    as (b2 & g2 & Hstep & Hp2 & Hd2 & Hc2 & Hq2).
  { discriminate. }
  { intros _. rewrite Hd1. unfold INT_MIN, INT_MAX. lia. }
  assert (Habs : abs_step (m_buffer_size b1) "}" (plain_cmds body, m_nestingLvl b1)
                 = (([], 0), [plain_cmds body])).
  { rewrite Hd1. unfold abs_step. simpl. destruct (plain_cmds body); [contradiction | reflexivity]. }
  rewrite Habs in *. simpl in Hp2, Hd2, Hq2.
  exists b0, g0, b2, g2. split; [exact Hopen|].
  split; [rewrite process_all_app, Hrun; simpl; now rewrite Hstep|].
  split; [apply (pushed_trans g0 g1 g2 [] _ Hq1 Hq2)|].
  split; [exact Hd2|].
  intros pre suf Hbody. subst body.
  destruct (process_inside_block pre suf b0 g0 Hp0 Hd0 Hbal Hlen Hdep)
    as (b3 & g3 & m & Hrun3 & _ & Hd3 & _ & _ & Hq3).
  exists b3, g3. repeat split; try apply Hq3; auto. lia.
Qed.

Lemma block_is_one_batch_witness :
  m_nestingLvl (Bulk_ctor 1 (mkGlobals (fun _ => 1700000000) 0 0 [] [])).1 = 0 /\
  block_body ["{"; "a"; "}"; "b"] = true /\
  plain_cmds ["{"; "a"; "}"; "b"] <> [] /\
  Z.of_nat (length (plain_cmds ["{"; "a"; "}"; "b"])) < SIZE_MOD /\
  Z.of_nat (length (markers ["{"; "a"; "}"; "b"])) + 2 <= INT_MAX /\
  exists (b0 : Bulk) (g0 : Globals) (b' : Bulk) (g' : Globals),
    process "{" (Bulk_ctor 1 (mkGlobals (fun _ => 1700000000) 0 0 [] [])).1
                (Bulk_ctor 1 (mkGlobals (fun _ => 1700000000) 0 0 [] [])).2 = Ok (b0, g0) /\
    process_all (["{"; "a"; "}"; "b"] ++ ["}"]) b0 g0 = Ok (b', g') /\
    pushed g0 g' [wire_format (plain_cmds ["{"; "a"; "}"; "b"])] /\
    m_nestingLvl b' = 0 /\
    forall pre suf : list string, ["{"; "a"; "}"; "b"] = pre ++ suf ->
      exists (b1 : Bulk) (g1 : Globals),
        process_all pre b0 g0 = Ok (b1, g1) /\
        pushed g0 g1 [] /\
        0 < m_nestingLvl b1.
Proof.
  split; [reflexivity|].
  split; [reflexivity|].
  split; [vm_compute; discriminate|].
  split; [vm_compute; reflexivity|].
  split; [vm_compute; discriminate|].
  apply block_is_one_batch;
    [reflexivity | reflexivity | vm_compute; discriminate
    | vm_compute; reflexivity | vm_compute; discriminate].
Defined.

(** ** C5 and C6: the nesting level *)

Lemma log_level (b : Bulk) (g : Globals) : m_nestingLvl (log b g).1 = 0.
Proof. apply log_resets. Qed.

Lemma flush_level (b : Bulk) (g : Globals) :
  m_nestingLvl (flush b g).1 = m_nestingLvl b.
Proof.
  unfold flush. destruct (Z.eqb_spec (m_nestingLvl b) 0) as [E|E].
  - now rewrite log_level.
  - reflexivity.
Qed.

Lemma push_cmd_level (cmd : string) (b : Bulk) (g : Globals) :
  m_nestingLvl (push_cmd cmd b g).1 = m_nestingLvl b.
Proof. unfold push_cmd. destruct (0 <? m_nCmds b); reflexivity. Qed.

Lemma push_cmd_queues (cmd : string) (b : Bulk) (g : Globals) :
  g_consoleLogQueue (push_cmd cmd b g).2 = g_consoleLogQueue g /\
  g_fileLogQueue (push_cmd cmd b g).2 = g_fileLogQueue g.
Proof. unfold push_cmd. destruct (0 <? m_nCmds b); split; reflexivity. Qed.

(** Whenever [process] returns, the nesting level has moved by what the
    command asks for. *)
Lemma process_level (cmd : string) (b b' : Bulk) (g g' : Globals) :
  process cmd b g = Ok (b', g') ->
  m_nestingLvl b' = m_nestingLvl b + delta cmd.
Proof.
  unfold process, delta. destruct (String.eqb cmd "{").
  - assert (Hf : m_nestingLvl (if m_nestingLvl b =? 0 then flush b g else (b, g)).1
                 = m_nestingLvl b)
      by (destruct (m_nestingLvl b =? 0); [apply flush_level | reflexivity]).
    destruct (if m_nestingLvl b =? 0 then flush b g else (b, g)) as [b1 g1].
    simpl in Hf. rewrite Hf. unfold int_incr.
    destruct (m_nestingLvl b <? INT_MAX); simpl; [|discriminate].
    intros [= <- <-]. reflexivity.
  - destruct (String.eqb cmd "}").
    + unfold int_decr. destruct (INT_MIN <? m_nestingLvl b); simpl; [|discriminate].
      destruct (m_nestingLvl b - 1 =? 0); intros [= H].
      * apply (f_equal fst) in H. simpl in H. subst b'.
        rewrite flush_level. simpl. lia.
      * subst b'. simpl. lia.
    + pose proof (push_cmd_level cmd b g) as Hl.
      destruct (push_cmd cmd b g) as [b1 g1]. simpl in Hl.
      destruct ((m_nCmds b1 =? m_buffer_size b1) && (m_nestingLvl b1 =? 0));
        intros [= H].
      * apply (f_equal fst) in H. simpl in H. subst b'.
        rewrite flush_level. lia.
      * subst b'. lia.
Qed.

(** [process] returns as long as a marker does not take the level out of
    the range of [int]. *)
Lemma process_returns (cmd : string) (b : Bulk) (g : Globals) :
  (plain cmd = false -> INT_MIN < m_nestingLvl b < INT_MAX) ->
  exists b' g', process cmd b g = Ok (b', g').
Proof.
  intros Hrange. unfold process. unfold plain in Hrange.
  destruct (String.eqb cmd "{").
  - destruct (Hrange eq_refl) as [_ Hhi].
    pose proof (flush_level b g) as Hf.
    destruct (m_nestingLvl b =? 0).
    + destruct (flush b g) as [b1 g1]. simpl in Hf.
      rewrite Hf, (int_incr_ok _ Hhi). simpl. eauto.
    + rewrite (int_incr_ok _ Hhi). simpl. eauto.
  - destruct (String.eqb cmd "}").
    + destruct (Hrange eq_refl) as [Hlo _].
      rewrite (int_decr_ok _ Hlo). simpl.
      match goal with |- exists _ _, Ok ?x = _ => destruct x as [b2 g2] end; eauto.
    + destruct (push_cmd cmd b g) as [b1 g1].
      match goal with |- exists _ _, Ok ?x = _ => destruct x as [b2 g2] end; eauto.
Qed.

Lemma log_quiet (b : Bulk) (g : Globals) :
  (0 <? m_nCmds b) = false ->
  g_consoleLogQueue (log b g).2 = g_consoleLogQueue g /\
  g_fileLogQueue (log b g).2 = g_fileLogQueue g.
Proof. intros H. unfold log. rewrite H. split; reflexivity. Qed.

(** A call of [process] that changes a queue ran [log] at nesting level
    zero: for an open marker that is the level before the call, for the
    other commands the level after it. *)
Lemma process_pushes_at_zero (cmd : string) (b b' : Bulk) (g g' : Globals) :
  process cmd b g = Ok (b', g') ->
  g_consoleLogQueue g' <> g_consoleLogQueue g \/
  g_fileLogQueue g' <> g_fileLogQueue g ->
  if String.eqb cmd "{" then m_nestingLvl b = 0 else m_nestingLvl b' = 0.
Proof.
  intros Hrun Hchg. pose proof (process_level cmd b b' g g' Hrun) as Hlvl.
  revert Hrun Hlvl. unfold process, delta. destruct (String.eqb cmd "{").
  - destruct (Z.eqb_spec (m_nestingLvl b) 0) as [E|E]; [auto|].
    unfold int_incr. destruct (m_nestingLvl b <? INT_MAX); simpl; [|discriminate].
    intros [= <- <-] _. destruct Hchg as [H|H]; contradiction.
  - destruct (String.eqb cmd "}").
    + unfold int_decr. destruct (INT_MIN <? m_nestingLvl b); simpl; [|discriminate].
      destruct (Z.eqb_spec (m_nestingLvl b - 1) 0) as [E|E]; intros [= Hbg] Hlvl.
      * lia.
      * subst g'. destruct Hchg as [H|H]; contradiction.
    + pose proof (push_cmd_queues cmd b g) as [Hq1 Hq2].
      pose proof (push_cmd_level cmd b g) as Hl.
      destruct (push_cmd cmd b g) as [b1 g1]. simpl in Hq1, Hq2, Hl.
      destruct (m_nCmds b1 =? m_buffer_size b1); simpl.
      * destruct (Z.eqb_spec (m_nestingLvl b1) 0) as [E|E]; intros [= Hbg] Hlvl.
        -- lia.
        -- subst g'. destruct Hchg as [H|H]; congruence.
      * intros [= Hbg] Hlvl. subst g'. destruct Hchg as [H|H]; congruence.
Qed.

Lemma depth_after_app (d : Z) (l1 l2 : list string) :
  depth_after d (l1 ++ l2) = depth_after (depth_after d l1) l2.
Proof. revert d. induction l1 as [|c l1 IH]; intros d; simpl; auto. Qed.

(** A run returns, and its nesting level is the sum of what the commands
    asked for, as long as that sum cannot leave the range of [int]. *)
Lemma process_all_level (cmds : list string) :
  forall (b : Bulk) (g : Globals),
    Z.abs (m_nestingLvl b) + Z.of_nat (length (markers cmds)) <= INT_MAX ->
    exists b' g',
      process_all cmds b g = Ok (b', g') /\
      m_nestingLvl b' = depth_after (m_nestingLvl b) cmds.
Proof.
  induction cmds as [|cmd cmds IH]; intros b g Hdep.
  - exists b, g. split; reflexivity.
  - rewrite markers_cons in Hdep. cbn [process_all depth_after].
    destruct (process_returns cmd b g) as (b1 & g1 & Hstep).
    { intros Hpl. rewrite Hpl in Hdep. simpl length in Hdep.
      unfold INT_MIN, INT_MAX in *. lia. }
    pose proof (process_level _ _ _ _ _ Hstep) as Hl.
    pose proof (delta_bound cmd) as Hdb.
    rewrite Hstep. simpl. rewrite <- Hl. apply IH.
    destruct (plain cmd); simpl length in Hdep; lia.
Qed.

(** C5 as stated fails: the first call of a fresh session can leave the
    nesting level below zero. *)
Lemma nesting_level_negative :
  exists (b : Bulk) (g : Globals),
    process "}" (Bulk_ctor 3 (mkGlobals (fun _ => 1700000000) 0 0 [] [])).1
                (Bulk_ctor 3 (mkGlobals (fun _ => 1700000000) 0 0 [] [])).2 = Ok (b, g) /\
    m_nestingLvl b = -1 /\ ~ 0 <= m_nestingLvl b.
Proof. eexists _, _. split; [reflexivity|]. split; [reflexivity|]. simpl. lia. Qed.

(** C5, amended.  For every session and every sequence of [process] calls
    (as long as the markers cannot take the level out of the range of
    [int]): before the call the nesting level is the number of open markers
    processed so far minus the number of close markers ([depth_after 0]),
    zero or above exactly when that difference is; the call changes it by
    [delta]: up by one for an open marker and for nothing else, down by one
    for a close marker and for nothing else; a call that changes a queue
    ran [log] at level exactly zero; and at any other level [flush] does
    nothing. *)
Theorem nesting_level_follows_markers
    (capacity : Z) (g0 : Globals) (pre : list string) (cmd : string) :
  Z.of_nat (length (markers (pre ++ [cmd]))) <= INT_MAX ->
  exists (b1 : Bulk) (g1 : Globals) (b2 : Bulk) (g2 : Globals),
    process_all pre (Bulk_ctor capacity g0).1 (Bulk_ctor capacity g0).2 = Ok (b1, g1) /\
    process cmd b1 g1 = Ok (b2, g2) /\
    m_nestingLvl b1 = depth_after 0 pre /\
    m_nestingLvl b2 = m_nestingLvl b1 + delta cmd /\
    (g_consoleLogQueue g2 <> g_consoleLogQueue g1 \/
     g_fileLogQueue g2 <> g_fileLogQueue g1 ->
     if String.eqb cmd "{" then m_nestingLvl b1 = 0 else m_nestingLvl b2 = 0) /\
    (m_nestingLvl b2 <> 0 -> flush b2 g2 = (b2, g2)).
Proof.
  intros Hdep. rewrite markers_app, length_app in Hdep.
  destruct (process_all_level pre (Bulk_ctor capacity g0).1 (Bulk_ctor capacity g0).2)
    as (b1 & g1 & Hrun & Hl1); [simpl; lia|].
  simpl in Hl1.
  assert (Hsum : forall l d, Z.abs (depth_after d l) <= Z.abs d + Z.of_nat (length (markers l))).
  { induction l as [|c l IH]; intros d; [simpl; lia|].
    rewrite markers_cons. pose proof (delta_bound c) as Hdb. simpl depth_after.
    specialize (IH (d + delta c)). destruct (plain c); simpl length; lia. }
  destruct (process_returns cmd b1 g1) as (b2 & g2 & Hstep).
  { intros Hpl. specialize (Hsum pre 0). rewrite <- Hl1 in Hsum.
    rewrite markers_cons, Hpl in Hdep. simpl length in Hdep.
    unfold INT_MIN, INT_MAX in *. lia. }
  exists b1, g1, b2, g2. repeat split; auto.
  - eapply process_level; eauto.
  - eapply process_pushes_at_zero; eauto.
  - apply flush_gated.
Qed.

Lemma nesting_level_follows_markers_witness :
  Z.of_nat (length (markers (["{"; "a"; "{"; "b"; "}"] ++ ["}"]))) <= INT_MAX /\
  exists (b1 : Bulk) (g1 : Globals) (b2 : Bulk) (g2 : Globals),
    process_all ["{"; "a"; "{"; "b"; "}"]
      (Bulk_ctor 3 (mkGlobals (fun _ => 1700000000) 0 0 [] [])).1
      (Bulk_ctor 3 (mkGlobals (fun _ => 1700000000) 0 0 [] [])).2 = Ok (b1, g1) /\
    process "}" b1 g1 = Ok (b2, g2) /\
    m_nestingLvl b1 = depth_after 0 ["{"; "a"; "{"; "b"; "}"] /\
    m_nestingLvl b2 = m_nestingLvl b1 + delta "}" /\
    (g_consoleLogQueue g2 <> g_consoleLogQueue g1 \/
     g_fileLogQueue g2 <> g_fileLogQueue g1 ->
     if String.eqb "}" "{" then m_nestingLvl b1 = 0 else m_nestingLvl b2 = 0) /\
    (m_nestingLvl b2 <> 0 -> flush b2 g2 = (b2, g2)).
Proof.
  split; [vm_compute; discriminate|].
  apply nesting_level_follows_markers. vm_compute. discriminate.
Defined.

(** C6 as stated fails: after an unmatched close marker two more close
    markers leave the nesting level at minus three. *)
Lemma three_unmatched_closes :
  exists (b : Bulk) (g : Globals),
    process_all ["}"; "}"; "}"]
      (Bulk_ctor 3 (mkGlobals (fun _ => 1700000000) 0 0 [] [])).1
      (Bulk_ctor 3 (mkGlobals (fun _ => 1700000000) 0 0 [] [])).2 = Ok (b, g) /\
    m_nestingLvl b = -3 /\ m_nestingLvl b <> 0.
Proof. eexists _, _. split; [reflexivity|]. split; [reflexivity | discriminate]. Qed.

(** C6, amended.  A close marker processed at nesting level zero takes the
    level to minus one, where [flush] does nothing.  From there two more
    close markers take it to minus three, where [flush] still does nothing;
    it is one open marker that takes it back to zero, with the buffer
    untouched, and there [flush] runs [log] again. *)
Theorem unmatched_close_recovery (b : Bulk) (g : Globals) :
  m_nestingLvl b = 0 ->
  exists b1 : Bulk,
    process "}" b g = Ok (b1, g) /\
    m_nestingLvl b1 = -1 /\
    flush b1 g = (b1, g) /\
    (exists b3 : Bulk,
        process_all ["}"; "}"] b1 g = Ok (b3, g) /\
        m_nestingLvl b3 = -3 /\
        flush b3 g = (b3, g)) /\
    (exists b0 : Bulk,
        process "{" b1 g = Ok (b0, g) /\
        m_nestingLvl b0 = 0 /\
        m_cmds b0 = m_cmds b /\ m_nCmds b0 = m_nCmds b /\
        flush b0 g = log b0 g).
Proof.
  intros Hd. exists (set_nestingLvl b (-1)).
  split; [unfold process; simpl; rewrite Hd; reflexivity|].
  split; [reflexivity|]. split; [reflexivity|]. split.
  - exists (set_nestingLvl b (-3)). repeat split.
  - exists (set_nestingLvl b 0). repeat split.
Qed.

Lemma unmatched_close_recovery_witness :
  m_nestingLvl (mkBulk "bulk: a" 3 1 1700000000 0) = 0 /\
  exists b1 : Bulk,
    process "}" (mkBulk "bulk: a" 3 1 1700000000 0)
                (mkGlobals (fun _ => 1700000000) 2 0 [] []) =
      Ok (b1, mkGlobals (fun _ => 1700000000) 2 0 [] []) /\
    m_nestingLvl b1 = -1 /\
    flush b1 (mkGlobals (fun _ => 1700000000) 2 0 [] []) =
      (b1, mkGlobals (fun _ => 1700000000) 2 0 [] []) /\
    (exists b3 : Bulk,
        process_all ["}"; "}"] b1 (mkGlobals (fun _ => 1700000000) 2 0 [] []) =
          Ok (b3, mkGlobals (fun _ => 1700000000) 2 0 [] []) /\
        m_nestingLvl b3 = -3 /\
        flush b3 (mkGlobals (fun _ => 1700000000) 2 0 [] []) =
          (b3, mkGlobals (fun _ => 1700000000) 2 0 [] [])) /\
    (exists b0 : Bulk,
        process "{" b1 (mkGlobals (fun _ => 1700000000) 2 0 [] []) =
          Ok (b0, mkGlobals (fun _ => 1700000000) 2 0 [] []) /\
        m_nestingLvl b0 = 0 /\
        m_cmds b0 = m_cmds (mkBulk "bulk: a" 3 1 1700000000 0) /\
        m_nCmds b0 = m_nCmds (mkBulk "bulk: a" 3 1 1700000000 0) /\
        flush b0 (mkGlobals (fun _ => 1700000000) 2 0 [] []) =
          log b0 (mkGlobals (fun _ => 1700000000) 2 0 [] [])).
Proof.
  split; [reflexivity|].
  apply (unmatched_close_recovery (mkBulk "bulk: a" 3 1 1700000000 0)). reflexivity.
Defined.

(** ** The session API on live and null handles *)

Lemma new_addr_spec (h : gmap N Bulk) :
  new_addr h <> nullptr /\ h !! new_addr h = None.
Proof.
  unfold new_addr.
  pose proof (is_fresh ({[nullptr]} ∪ dom h)) as Hfresh.
  split.
  - intros E. apply Hfresh. rewrite E. set_solver.
  - apply not_elem_of_dom. set_solver.
Qed.

Lemma connect_spec (bulk : Z) (m : Machine) :
  let h := (connect bulk m).1 in
  let m0 := (connect bulk m).2 in
  h <> nullptr /\ heap m !! h = None /\
  heap m0 = <[h := (Bulk_ctor bulk (statics m)).1]> (heap m) /\
  statics m0 = (Bulk_ctor bulk (statics m)).2.
Proof.
  unfold connect. destruct (Bulk_ctor bulk (statics m)) as [b g1]. simpl.
  destruct (new_addr_spec (heap m)) as [H1 H2]. auto.
Qed.

Lemma receive_live (h : N) (data : string) (m : Machine) (b b1 : Bulk) (g1 : Globals) :
  h <> nullptr -> heap m !! h = Some b ->
  process_all (filter (fun c => nonempty c = true) (getlines "" data)) b (statics m)
    = Ok (b1, g1) ->
  receive h data m = Ok (mkMachine g1 (<[h := b1]> (heap m))).
Proof.
  intros Hn Hl Hrun. unfold receive.
  destruct (N.eqb_spec h nullptr); [contradiction|].
  rewrite Hl, Hrun. reflexivity.
Qed.

Lemma disconnect_live (h : N) (m : Machine) (b : Bulk) :
  h <> nullptr -> heap m !! h = Some b ->
  disconnect h m = Ok (mkMachine (flush b (statics m)).2 (delete h (heap m))).
Proof.
  intros Hn Hl. unfold disconnect.
  destruct (N.eqb_spec h nullptr); [contradiction|].
  rewrite Hl. now destruct (flush b (statics m)).
Qed.

(** [receive] on a live handle, against the pending list of its session. *)
Lemma receive_refines (h : N) (data : string) (m : Machine) (b : Bulk)
    (p : list string) (capacity d : Z) :
  let lines := filter (fun c => nonempty c = true) (getlines "" data) in
  h <> nullptr -> heap m !! h = Some b -> pending b p ->
  m_buffer_size b = capacity -> m_nestingLvl b = d ->
  Z.of_nat (length p) + Z.of_nat (length (plain_cmds lines)) < SIZE_MOD ->
  Z.abs d + Z.of_nat (length (markers lines)) <= INT_MAX ->
  exists (b1 : Bulk) (g1 : Globals),
    receive h data m = Ok (mkMachine g1 (<[h := b1]> (heap m))) /\
    pending b1 (abs_run capacity lines (p, d)).1.1 /\
    m_buffer_size b1 = capacity /\
    m_nestingLvl b1 = (abs_run capacity lines (p, d)).1.2 /\
    pushed (statics m) g1 (map wire_format (abs_run capacity lines (p, d)).2).
Proof.
  intros lines Hn Hl Hp Hc Hd Hlen Hdep. subst capacity d.
  destruct (process_all_refines lines b (statics m) p Hp Hlen Hdep)
    as (b1 & g1 & Hrun & Hp1 & Hd1 & Hc1 & Hq1).
  exists b1, g1. split; [now apply (receive_live h data m b)|]. auto.
Qed.

Ltac bounds_by_evaluation :=
  match goal with
  | |- _ < SIZE_MOD => vm_compute; reflexivity
  | |- _ <= INT_MAX => vm_compute; discriminate
  end.

Ltac evaluate_abs_run :=
  repeat match goal with
  | H : context [abs_run ?c ?l ?st] |- _ =>
      let r := fresh "r" in
      let Er := fresh "Er" in
      remember (abs_run c l st) as r eqn:Er in *;
      vm_compute in Er; subst r; cbn [fst snd map] in *
  end.

(** ** C7: the mixed scenario at capacity three *)

(** C7.  In any process state, open a session of capacity 3 and feed it
    cmd1, an open marker, cmd2, cmd3, a close marker and cmd4, then
    disconnect.  cmd1 alone pushes nothing; the open marker pushes
    "bulk: cmd1"; cmd2 and cmd3 push nothing; the close marker pushes
    "bulk: cmd2, cmd3"; cmd4 pushes nothing; disconnect pushes
    "bulk: cmd4" and releases the session.  Three batches in all, and the
    same when the six commands arrive in one buffer. *)
Theorem scenario_capacity_three (m : Machine) :
  let h := (connect 3 m).1 in
  let m0 := (connect 3 m).2 in
  exists m1 m2 m3 m4 m5 m6 m5' m6' : Machine,
    receive h ("cmd1" +:+ nl) m0 = Ok m1 /\
    pushed (statics m0) (statics m1) [] /\
    receive h ("{" +:+ nl) m1 = Ok m2 /\
    pushed (statics m1) (statics m2) ["bulk: cmd1"] /\
    receive h ("cmd2" +:+ nl +:+ "cmd3" +:+ nl) m2 = Ok m3 /\
    pushed (statics m2) (statics m3) [] /\
    receive h ("}" +:+ nl) m3 = Ok m4 /\
    pushed (statics m3) (statics m4) ["bulk: cmd2, cmd3"] /\
    receive h ("cmd4" +:+ nl) m4 = Ok m5 /\
    pushed (statics m4) (statics m5) [] /\
    disconnect h m5 = Ok m6 /\
    pushed (statics m5) (statics m6) ["bulk: cmd4"] /\
    pushed (statics m) (statics m6) ["bulk: cmd1"; "bulk: cmd2, cmd3"; "bulk: cmd4"] /\
    heap m6 = heap m /\
    receive h ("cmd1" +:+ nl +:+ "{" +:+ nl +:+ "cmd2" +:+ nl +:+ "cmd3" +:+ nl
               +:+ "}" +:+ nl +:+ "cmd4" +:+ nl) m0 = Ok m5' /\
    disconnect h m5' = Ok m6' /\
    pushed (statics m) (statics m6') ["bulk: cmd1"; "bulk: cmd2, cmd3"; "bulk: cmd4"] /\
    heap m6' = heap m.
Proof.
  destruct (connect_spec 3 m) as (Hn & Hfree & Hheap & Hst).
  set (h := (connect 3 m).1) in *. set (m0 := (connect 3 m).2) in *.
  cbv zeta.
  assert (Hl0 : heap m0 !! h = Some (Bulk_ctor 3 (statics m)).1)
    by (rewrite Hheap; apply lookup_insert_eq).
  assert (Hq0 : pushed (statics m) (statics m0) [])
    by (rewrite Hst; apply pushed_ctor).
  pose proof (pending_ctor 3 (statics m)) as Hp0.
  (* the six commands one buffer at a time *)
  destruct (receive_refines h ("cmd1" +:+ nl) m0 _ [] 3 0 Hn Hl0 Hp0 eq_refl eq_refl)
    as (b1 & g1 & Hr1 & Hp1 & Hc1 & Hd1 & Hq1); [bounds_by_evaluation ..|].
  evaluate_abs_run.
  set (m1 := mkMachine g1 (<[h:=b1]> (heap m0))) in *.
  destruct (receive_refines h ("{" +:+ nl) m1 b1 _ 3 0 Hn
              (lookup_insert_eq (heap m0) h b1) Hp1 Hc1 Hd1)
    as (b2 & g2 & Hr2 & Hp2 & Hc2 & Hd2 & Hq2); [bounds_by_evaluation ..|].
  evaluate_abs_run.
  set (m2 := mkMachine g2 (<[h:=b2]> (heap m1))) in *.
  destruct (receive_refines h ("cmd2" +:+ nl +:+ "cmd3" +:+ nl) m2 b2 _ 3 1 Hn
              (lookup_insert_eq (heap m1) h b2) Hp2 Hc2 Hd2)
    as (b3 & g3 & Hr3 & Hp3 & Hc3 & Hd3 & Hq3); [bounds_by_evaluation ..|].
  evaluate_abs_run.
  set (m3 := mkMachine g3 (<[h:=b3]> (heap m2))) in *.
  destruct (receive_refines h ("}" +:+ nl) m3 b3 _ 3 1 Hn
              (lookup_insert_eq (heap m2) h b3) Hp3 Hc3 Hd3)
    as (b4 & g4 & Hr4 & Hp4 & Hc4 & Hd4 & Hq4); [bounds_by_evaluation ..|].
  evaluate_abs_run.
  set (m4 := mkMachine g4 (<[h:=b4]> (heap m3))) in *.
  destruct (receive_refines h ("cmd4" +:+ nl) m4 b4 _ 3 0 Hn
              (lookup_insert_eq (heap m3) h b4) Hp4 Hc4 Hd4)
    as (b5 & g5 & Hr5 & Hp5 & Hc5 & Hd5 & Hq5); [bounds_by_evaluation ..|].
  evaluate_abs_run.
  set (m5 := mkMachine g5 (<[h:=b5]> (heap m4))) in *.
  pose proof (disconnect_live h m5 b5 Hn (lookup_insert_eq (heap m4) h b5)) as Hdis.
  pose proof (flush_pending b5 g5 _ Hp5 Hd5) as (_ & _ & _ & Hq6).
  (* the six commands in one buffer *)
  destruct (receive_refines h ("cmd1" +:+ nl +:+ "{" +:+ nl +:+ "cmd2" +:+ nl +:+ "cmd3" +:+ nl
                               +:+ "}" +:+ nl +:+ "cmd4" +:+ nl)
              m0 _ [] 3 0 Hn Hl0 Hp0 eq_refl eq_refl)
    as (b5' & g5' & Hr5' & Hp5' & Hc5' & Hd5' & Hq5'); [bounds_by_evaluation ..|].
  evaluate_abs_run.
  set (m5' := mkMachine g5' (<[h:=b5']> (heap m0))) in *.
  pose proof (disconnect_live h m5' b5' Hn (lookup_insert_eq (heap m0) h b5')) as Hdis'.
  pose proof (flush_pending b5' g5' _ Hp5' Hd5') as (_ & _ & _ & Hq6').
  simpl in Hq6, Hq6'.
  assert (Hheap6 : forall hp : gmap N Bulk,
             delete h hp = delete h (heap m0) -> delete h hp = heap m).
  { intros hp ->. rewrite Hheap, delete_insert_eq. now apply delete_id. }
  exists m1, m2, m3, m4, m5, (mkMachine (flush b5 (statics m5)).2 (delete h (heap m5))),
    m5', (mkMachine (flush b5' (statics m5')).2 (delete h (heap m5'))).
  split; [exact Hr1|]. split; [exact Hq1|].
  split; [exact Hr2|]. split; [exact Hq2|].
  split; [exact Hr3|]. split; [exact Hq3|].
  split; [exact Hr4|]. split; [exact Hq4|].
  split; [exact Hr5|]. split; [exact Hq5|].
  split; [exact Hdis|]. split; [exact Hq6|].
  split.
  { apply (pushed_trans _ _ _ [] _ Hq0).
    apply (pushed_trans _ _ _ [] _ Hq1).
    apply (pushed_trans _ _ _ [_] _ Hq2).
    apply (pushed_trans _ _ _ [] _ Hq3).
    apply (pushed_trans _ _ _ [_] _ Hq4).
    apply (pushed_trans _ _ _ [] _ Hq5). exact Hq6. }
  split.
  { simpl. apply Hheap6. subst m5 m4 m3 m2 m1. simpl. now rewrite !delete_insert_eq. }
  split; [exact Hr5'|]. split; [exact Hdis'|].
  split.
  { apply (pushed_trans _ _ _ [] _ Hq0).
    apply (pushed_trans _ _ _ [_; _] _ Hq5'). exact Hq6'. }
  simpl. apply Hheap6. subst m5'. simpl. now rewrite !delete_insert_eq.
Qed.

(** ** C10: capacity zero *)

(** At capacity zero a plain command never changes a queue, in any state:
    the threshold test can only succeed on a command count of zero, and
    then [log] has nothing to push. *)
Lemma capacity_zero_plain_quiet (cmd : string) (b : Bulk) (g : Globals) :
  m_buffer_size b = 0 -> plain cmd = true ->
  exists b' g',
    process cmd b g = Ok (b', g') /\
    g_consoleLogQueue g' = g_consoleLogQueue g /\
    g_fileLogQueue g' = g_fileLogQueue g.
Proof.
  intros Hcap Hpl. unfold process.
  rewrite (plain_not_open _ Hpl), (plain_not_close _ Hpl).
  pose proof (push_cmd_queues cmd b g) as [Hq1 Hq2].
  assert (Hc1 : m_buffer_size (push_cmd cmd b g).1 = 0)
    by (unfold push_cmd; destruct (0 <? m_nCmds b); exact Hcap).
  destruct (push_cmd cmd b g) as [b1 g1]. simpl in Hq1, Hq2, Hc1. rewrite Hc1.
  destruct (Z.eqb_spec (m_nCmds b1) 0) as [Hz|Hz]; simpl.
  - destruct (Z.eqb_spec (m_nestingLvl b1) 0) as [Hd|Hd].
    + unfold flush. rewrite Hd. simpl.
      destruct (log_quiet b1 g1) as [Hl1 Hl2]; [now rewrite Hz|].
      destruct (log b1 g1) as [b2 g2]. simpl in *.
      exists b2, g2. repeat split; congruence.
    + exists b1, g1. auto.
  - exists b1, g1. auto.
Qed.

(** C10.  [connect] accepts capacity 0 and returns a live session with
    threshold zero.  Plain commands given to that session (fewer than
    [2^64] of them) push nothing and all stay buffered; the command count
    is their number, so not zero once there is one; what has accumulated
    leaves as one batch on the flush of [disconnect] or on the next open
    marker.  In any state of a session with threshold zero a plain command
    changes neither queue. *)
Theorem capacity_zero_accumulates (m : Machine) (cmds : list string) :
  forallb plain cmds = true ->
  Z.of_nat (length cmds) < SIZE_MOD ->
  let h := (connect 0 m).1 in
  let m0 := (connect 0 m).2 in
  exists b0 : Bulk,
    h <> nullptr /\ heap m0 !! h = Some b0 /\ m_buffer_size b0 = 0 /\
    (exists (b : Bulk) (g : Globals),
        process_all cmds b0 (statics m0) = Ok (b, g) /\
        pushed (statics m0) g [] /\
        m_cmds b = wire_format cmds /\
        m_nCmds b = Z.of_nat (length cmds) /\
        (cmds <> [] -> m_nCmds b <> m_buffer_size b) /\
        m_nestingLvl b = 0 /\
        pushed g (flush b g).2 (map wire_format (batch_of cmds)) /\
        exists (b' : Bulk) (g' : Globals),
          process "{" b g = Ok (b', g') /\
          pushed g g' (map wire_format (batch_of cmds))) /\
    (forall (b : Bulk) (g : Globals) (cmd : string),
        m_buffer_size b = 0 -> plain cmd = true ->
        exists b' g',
          process cmd b g = Ok (b', g') /\
          g_consoleLogQueue g' = g_consoleLogQueue g /\
          g_fileLogQueue g' = g_fileLogQueue g).
Proof.
  intros Hpl Hlen.
  destruct (connect_spec 0 m) as (Hn & Hfree & Hheap & Hst).
  cbv zeta. exists (Bulk_ctor 0 (statics m)).1.
  split; [exact Hn|]. split; [rewrite Hheap; apply lookup_insert_eq|].
  split; [reflexivity|]. split; [|intros; now apply capacity_zero_plain_quiet].
  destruct (plain_cmds_all cmds Hpl) as [Hpc Hmk].
  rewrite Hst.
  destruct (process_all_refines cmds (Bulk_ctor 0 (statics m)).1
              (Bulk_ctor 0 (statics m)).2 [] (pending_ctor 0 (statics m)))
    as (b & g & Hrun & Hp & Hd & Hc & Hq);
    [rewrite Hpc; simpl; lia | rewrite Hmk; simpl; unfold INT_MAX; lia |].
  change (m_buffer_size (Bulk_ctor 0 (statics m)).1) with 0 in *.
  change (m_nestingLvl (Bulk_ctor 0 (statics m)).1) with 0 in *.
  rewrite (abs_run_capacity_zero cmds [] 0 Hpl) in *. simpl in Hp, Hd, Hq.
  exists b, g. split; [exact Hrun|]. split; [exact Hq|].
  split; [apply Hp|]. split; [apply Hp|].
  split. { destruct Hp as [_ Hn']. rewrite Hn', Hc.
           destruct cmds; [contradiction | simpl length; lia]. }
  split; [exact Hd|].
  split; [now apply flush_pending|].
  destruct (process_refines "{" b g cmds Hp) as (b' & g' & Hstep & _ & _ & _ & Hq').
  { discriminate. }
  { intros _. rewrite Hd. unfold INT_MIN, INT_MAX. lia. }
  exists b', g'. split; [exact Hstep|].
  rewrite Hd in Hq'. exact Hq'.
Qed.

Lemma capacity_zero_accumulates_witness :
  forallb plain ["a"; "b"; "c"; "d"; "e"] = true /\
  Z.of_nat (length ["a"; "b"; "c"; "d"; "e"]) < SIZE_MOD /\
  let m := boot (fun _ => 1700000000) in
  let cmds := ["a"; "b"; "c"; "d"; "e"] in
  let h := (connect 0 m).1 in
  let m0 := (connect 0 m).2 in
  exists b0 : Bulk,
    h <> nullptr /\ heap m0 !! h = Some b0 /\ m_buffer_size b0 = 0 /\
    (exists (b : Bulk) (g : Globals),
        process_all cmds b0 (statics m0) = Ok (b, g) /\
        pushed (statics m0) g [] /\
        m_cmds b = wire_format cmds /\
        m_nCmds b = Z.of_nat (length cmds) /\
        (cmds <> [] -> m_nCmds b <> m_buffer_size b) /\
        m_nestingLvl b = 0 /\
        pushed g (flush b g).2 (map wire_format (batch_of cmds)) /\
        exists (b' : Bulk) (g' : Globals),
          process "{" b g = Ok (b', g') /\
          pushed g g' (map wire_format (batch_of cmds))) /\
    (forall (b : Bulk) (g : Globals) (cmd : string),
        m_buffer_size b = 0 -> plain cmd = true ->
        exists b' g',
          process cmd b g = Ok (b', g') /\
          g_consoleLogQueue g' = g_consoleLogQueue g /\
          g_fileLogQueue g' = g_fileLogQueue g).
Proof.
  split; [reflexivity|]. split; [reflexivity|].
  apply (capacity_zero_accumulates (boot (fun _ => 1700000000)) ["a"; "b"; "c"; "d"; "e"]);
    reflexivity.
Defined.

(** ** C8: null handles *)

(** C8 as stated fails: after the first [disconnect] the handle designates
    no live object, and a second [disconnect] (or a [receive]) on it
    dereferences it; so does any call on a non-null handle that [connect]
    never returned. *)
Lemma second_disconnect_undefined :
  let m := boot (fun _ => 1700000000) in
  let h := (connect 3 m).1 in
  let m0 := (connect 3 m).2 in
  exists m1 : Machine,
    disconnect h m0 = Ok m1 /\
    disconnect h m1 = UB /\ disconnect h m1 <> Ok m1 /\
    receive h ("a" +:+ nl) m1 = UB /\
    disconnect 42%N m = UB /\ receive 42%N ("a" +:+ nl) m = UB.
Proof.
  eexists. split; [vm_compute; reflexivity|].
  repeat split; try (vm_compute; reflexivity). vm_compute. discriminate.
Qed.

(** C8, amended.  [disconnect] and [receive] on the null handle return
    with the whole process state unchanged: nothing is pushed, no session
    is touched. *)
Theorem null_handle_noop (m : Machine) (data : string) :
  disconnect nullptr m = Ok m /\ receive nullptr data m = Ok m.
Proof. split; reflexivity. Qed.

(** ** C4: file names *)

Lemma split_at_char (c : ascii) (s1 : string) :
  forall s2 r1 r2 : string,
    has_char c s1 = false -> has_char c s2 = false ->
    s1 +:+ String c r1 = s2 +:+ String c r2 ->
    s1 = s2 /\ r1 = r2.
Proof.
  induction s1 as [|a s1 IH]; intros [|a' s2] r1 r2 H1 H2 E.
  - simpl in E. injection E as E. auto.
  - rewrite append_cons, append_nil_l in E. injection E as Ea _. subst a'.
    simpl in H2. rewrite Ascii.eqb_refl in H2. discriminate.
  - rewrite append_cons, append_nil_l in E. injection E as Ea _. subst a.
    simpl in H1. rewrite Ascii.eqb_refl in H1. discriminate.
  - rewrite !append_cons in E. injection E as Ea E. subst a'.
    simpl in H1, H2. apply orb_false_iff in H1 as [_ H1].
    apply orb_false_iff in H2 as [_ H2].
    destruct (IH s2 r1 r2 H1 H2 E) as [-> ->]. auto.
Qed.

Lemma digits_no_underscore (d : uint) :
  has_char "_" (NilEmpty.string_of_uint d) = false.
Proof. induction d; simpl; auto. Qed.

Lemma digits_no_dot (d : uint) :
  has_char "." (NilEmpty.string_of_uint d) = false.
Proof. induction d; simpl; auto. Qed.

Lemma to_string_long_no_underscore (t : Z) :
  has_char "_" (to_string_long t) = false.
Proof.
  unfold to_string_long, NilZero.string_of_int, NilZero.string_of_uint.
  destruct (Z.to_int t) as [d|d]; destruct d; simpl;
    auto using digits_no_underscore.
Qed.

Lemma to_string_unsigned_no_dot (n : Z) :
  has_char "." (to_string_unsigned n) = false.
Proof.
  unfold to_string_unsigned, NilZero.string_of_uint.
  destruct (N.to_uint (Z.to_N n)); simpl; auto using digits_no_dot.
Qed.

Lemma N_to_uint_nonnil (n : N) : N.to_uint n <> Nil.
Proof.
  destruct n; simpl; [discriminate|].
  apply DecimalPos.Unsigned.to_uint_nonnil.
Qed.

Lemma to_string_unsigned_inj (a b : Z) :
  0 <= a -> 0 <= b -> to_string_unsigned a = to_string_unsigned b -> a = b.
Proof.
  intros Ha Hb E. unfold to_string_unsigned in E.
  apply (f_equal NilZero.uint_of_string) in E.
  rewrite !NilZero.usu in E by apply N_to_uint_nonnil.
  injection E as E. apply DecimalN.Unsigned.to_uint_inj in E. lia.
Qed.

(** Two names with different counter values are different, whatever the
    timestamps. *)
Lemma file_name_inj (t t' a a' : Z) :
  0 <= a -> 0 <= a' -> file_name t a = file_name t' a' -> a = a'.
Proof.
  intros Ha Ha' E. unfold file_name in E.
  apply String.app_inj in E.
  change ("_" +:+ to_string_unsigned a +:+ ".log")
    with (String "_" (to_string_unsigned a +:+ String "." "log")) in E.
  change ("_" +:+ to_string_unsigned a' +:+ ".log")
    with (String "_" (to_string_unsigned a' +:+ String "." "log")) in E.
  apply split_at_char in E as [_ E]; auto using to_string_long_no_underscore.
  apply split_at_char in E as [E _]; auto using to_string_unsigned_no_dot.
  now apply to_string_unsigned_inj.
Qed.

Lemma names_wf_same (g g' : Globals) :
  postfix_counter g' = postfix_counter g ->
  g_fileLogQueue g' = g_fileLogQueue g ->
  names_wf g -> names_wf g'.
Proof. unfold names_wf. intros -> ->. auto. Qed.

Lemma names_wf_std_time (g : Globals) : names_wf g -> names_wf (std_time g).2.
Proof. now apply names_wf_same. Qed.

Lemma names_wf_log (b : Bulk) (g : Globals) : names_wf g -> names_wf (log b g).2.
Proof.
  intros [Hc Hn]. unfold log. destruct (0 <? m_nCmds b).
  - apply names_wf_std_time. split; simpl.
    + rewrite Hc, length_app, Nat2Z.inj_add. simpl length.
      unfold uint_incr. now rewrite Zplus_mod_idemp_l.
    + intros i name content Hi. apply lookup_app_Some in Hi as [Hi|[Hge Hi]].
      * eauto.
      * destruct (i - length (g_fileLogQueue g))%nat as [|k] eqn:Hk; [|discriminate].
        simpl in Hi. injection Hi as <- _. exists (m_time b).
        rewrite Hc. do 2 f_equal. lia.
  - now apply names_wf_std_time.
Qed.

Lemma names_wf_flush (b : Bulk) (g : Globals) : names_wf g -> names_wf (flush b g).2.
Proof.
  intros H. unfold flush. destruct (m_nestingLvl b =? 0); [now apply names_wf_log | exact H].
Qed.

Lemma names_wf_push_cmd (cmd : string) (b : Bulk) (g : Globals) :
  names_wf g -> names_wf (push_cmd cmd b g).2.
Proof.
  intros H. unfold push_cmd. destruct (0 <? m_nCmds b); [exact H|].
  now apply names_wf_std_time.
Qed.

Lemma names_wf_process (cmd : string) (b b' : Bulk) (g g' : Globals) :
  names_wf g -> process cmd b g = Ok (b', g') -> names_wf g'.
Proof.
  intros H. unfold process. destruct (String.eqb cmd "{").
  - assert (Hf : names_wf (if m_nestingLvl b =? 0 then flush b g else (b, g)).2)
      by (destruct (m_nestingLvl b =? 0); [now apply names_wf_flush | exact H]).
    destruct (if m_nestingLvl b =? 0 then flush b g else (b, g)) as [b1 g1].
    destruct (int_incr (m_nestingLvl b1)); simpl; [|discriminate].
    intros [= _ <-]. exact Hf.
  - destruct (String.eqb cmd "}").
    + destruct (int_decr (m_nestingLvl b)) as [d|]; simpl; [|discriminate].
      destruct (d =? 0); intros [= E].
      * apply (f_equal snd) in E. simpl in E. subst g'. now apply names_wf_flush.
      * now subst g'.
    + pose proof (names_wf_push_cmd cmd b g H) as H1.
      destruct (push_cmd cmd b g) as [b1 g1]. simpl in H1.
      destruct (_ && _); intros [= E].
      * apply (f_equal snd) in E. simpl in E. subst g'. now apply names_wf_flush.
      * now subst g'.
Qed.

Lemma names_wf_process_all (cmds : list string) :
  forall (b b' : Bulk) (g g' : Globals),
    names_wf g -> process_all cmds b g = Ok (b', g') -> names_wf g'.
Proof.
  induction cmds as [|cmd cmds IH]; intros b b' g g' H.
  - intros [= _ <-]. exact H.
  - cbn [process_all]. destruct (process cmd b g) as [[b1 g1]|] eqn:E; simpl; [|discriminate].
    apply IH. eapply names_wf_process; eauto.
Qed.

Lemma names_wf_run_call (c : call) (m m' : Machine) :
  names_wf (statics m) -> run_call c m = Ok m' -> names_wf (statics m').
Proof.
  intros H. destruct c as [bulk|h data|h]; simpl.
  - intros [= <-]. unfold connect, Bulk_ctor.
    simpl. now apply names_wf_std_time.
  - unfold receive. destruct (h =? nullptr)%N; [now intros [= <-]|].
    destruct (heap m !! h) as [b|]; [|discriminate].
    destruct (process_all _ b (statics m)) as [[b1 g1]|] eqn:E; simpl; [|discriminate].
    intros [= <-]. simpl. eapply names_wf_process_all; eauto.
  - unfold disconnect. destruct (h =? nullptr)%N; [now intros [= <-]|].
    destruct (heap m !! h) as [b|]; [|discriminate].
    pose proof (names_wf_flush b (statics m) H) as Hf.
    destruct (flush b (statics m)) as [b1 g1]. intros [= <-]. exact Hf.
Qed.

Lemma names_wf_run_calls (cs : list call) :
  forall m m' : Machine,
    names_wf (statics m) -> run_calls cs m = Ok m' -> names_wf (statics m').
Proof.
  induction cs as [|c cs IH]; intros m m' H.
  - now intros [= <-].
  - cbn [run_calls]. destruct (run_call c m) as [m1|] eqn:E; simpl; [|discriminate].
    apply IH. eapply names_wf_run_call; eauto.
Qed.

Lemma names_wf_boot (clk : nat -> Z) : names_wf (statics (boot clk)).
Proof. split; [reflexivity|]. intros i name content Hi. destruct i; discriminate. Qed.

(** C4, amended.  Let any callers make any calls of the session API, one
    call after the other, in a process that starts with nothing flushed.
    In the file queue the name of the [i]-th batch is built from a
    timestamp and the counter value [i mod 2^32]; so any two batches fewer
    than [2^32] flushes apart, from one session or from two, with equal
    timestamps or not, have different file names. *)
Theorem file_names_distinct
    (clk : nat -> Z) (calls : list call) (m : Machine)
    (i j : nat) (name_i content_i name_j content_j : string) :
  run_calls calls (boot clk) = Ok m ->
  g_fileLogQueue (statics m) !! i = Some (name_i, content_i) ->
  g_fileLogQueue (statics m) !! j = Some (name_j, content_j) ->
  i <> j ->
  Z.abs (Z.of_nat i - Z.of_nat j) < UINT_MOD ->
  (exists t : Z, name_i = file_name t (Z.of_nat i mod UINT_MOD)) /\
  (exists t : Z, name_j = file_name t (Z.of_nat j mod UINT_MOD)) /\
  name_i <> name_j.
Proof.
  intros Hrun Hi Hj Hne Hclose.
  destruct (names_wf_run_calls calls _ _ (names_wf_boot clk) Hrun) as [_ Hn].
  destruct (Hn i _ _ Hi) as [ti Eti]. destruct (Hn j _ _ Hj) as [tj Etj].
  split; [eauto|]. split; [eauto|].
  intros E. rewrite Eti, Etj in E.
  assert (HM : 0 < UINT_MOD) by (unfold UINT_MOD; lia).
  apply file_name_inj in E; try (apply Z.mod_pos_bound; exact HM).
  pose proof (Z.div_mod (Z.of_nat i) UINT_MOD ltac:(lia)) as Di.
  pose proof (Z.div_mod (Z.of_nat j) UINT_MOD ltac:(lia)) as Dj.
  rewrite E in Di.
  assert (Z.of_nat i - Z.of_nat j =
          UINT_MOD * (Z.of_nat i / UINT_MOD - Z.of_nat j / UINT_MOD)) by lia.
  assert (Z.of_nat i / UINT_MOD - Z.of_nat j / UINT_MOD = 0) by nia.
  lia.
Qed.

Lemma file_names_distinct_witness :
  exists m : Machine,
    run_calls [Connect 1; Receive 1%N ("a" +:+ nl +:+ "b" +:+ nl)]
              (boot (fun _ => 1700000000)) = Ok m /\
    g_fileLogQueue (statics m) !! 0%nat = Some ("bulk1700000000_0.log", "bulk: a") /\
    g_fileLogQueue (statics m) !! 1%nat = Some ("bulk1700000000_1.log", "bulk: b") /\
    0%nat <> 1%nat /\
    Z.abs (Z.of_nat 0 - Z.of_nat 1) < UINT_MOD /\
    (exists t : Z, "bulk1700000000_0.log" = file_name t (Z.of_nat 0 mod UINT_MOD)) /\
    (exists t : Z, "bulk1700000000_1.log" = file_name t (Z.of_nat 1 mod UINT_MOD)) /\
    "bulk1700000000_0.log" <> "bulk1700000000_1.log".
Proof.
  assert (E : match run_calls [Connect 1; Receive 1%N ("a" +:+ nl +:+ "b" +:+ nl)]
                              (boot (fun _ => 1700000000)) with
              | Ok m => Some (g_fileLogQueue (statics m))
              | UB => None
              end = Some [("bulk1700000000_0.log", "bulk: a");
                          ("bulk1700000000_1.log", "bulk: b")])
    by (vm_compute; reflexivity).
  destruct (run_calls [Connect 1; Receive 1%N ("a" +:+ nl +:+ "b" +:+ nl)]
                      (boot (fun _ => 1700000000))) as [m|] eqn:Hrun; [|discriminate].
  injection E as E. exists m.
  split; [reflexivity|].
  split; [rewrite E; reflexivity|]. split; [rewrite E; reflexivity|].
  split; [discriminate|]. split; [reflexivity|].
  apply (file_names_distinct (fun _ => 1700000000)
           [Connect 1; Receive 1%N ("a" +:+ nl +:+ "b" +:+ nl)] m 0 1
           "bulk1700000000_0.log" "bulk: a" "bulk1700000000_1.log" "bulk: b");
    [exact Hrun | rewrite E; reflexivity | rewrite E; reflexivity
    | discriminate | reflexivity].
Defined.

(** *** Names repeat once the counter has wrapped *)

Lemma run_calls_app (cs1 cs2 : list call) (m : Machine) :
  run_calls (cs1 ++ cs2) m = m1 ← run_calls cs1 m; run_calls cs2 m1.
Proof.
  revert m. induction cs1 as [|c cs1 IH]; intros m; [reflexivity|].
  cbn [app run_calls]. destruct (run_call c m) as [m1|]; simpl; [apply IH | reflexivity].
Qed.

(** A session of capacity one with an empty buffer flushes the command it
    receives at once, and is left with an empty buffer. *)
Lemma receive_one_flush (h : N) (m : Machine) (t : Z) :
  h <> nullptr -> heap m !! h = Some (mkBulk "bulk:" 1 0 t 0) ->
  exists (m' : Machine) (t' : Z) (x : string * string),
    receive h ("a" +:+ nl) m = Ok m' /\
    heap m' = <[h := mkBulk "bulk:" 1 0 t' 0]> (heap m) /\
    g_fileLogQueue (statics m') = g_fileLogQueue (statics m) ++ [x].
Proof.
  intros Hn Hl. unfold receive. destruct (N.eqb_spec h nullptr); [contradiction|].
  rewrite Hl. eexists _, _, _. split; [reflexivity|]. split; reflexivity.
Qed.

Lemma repeat_flushes (h : N) (n : nat) :
  h <> nullptr ->
  forall (m : Machine) (t : Z),
    heap m !! h = Some (mkBulk "bulk:" 1 0 t 0) ->
    exists (m' : Machine) (t' : Z) (l : list (string * string)),
      run_calls (repeat (Receive h ("a" +:+ nl)) n) m = Ok m' /\
      heap m' !! h = Some (mkBulk "bulk:" 1 0 t' 0) /\
      (forall k : N, k <> h -> heap m' !! k = heap m !! k) /\
      g_fileLogQueue (statics m') = g_fileLogQueue (statics m) ++ l /\
      length l = n.
Proof.
  intros Hn. induction n as [|n IH]; intros m t Hl.
  - exists m, t, []. rewrite app_nil_r. auto.
  - destruct (receive_one_flush h m t Hn Hl) as (m1 & t1 & x & Hr & Hh & Hq).
    destruct (IH m1 t1) as (m2 & t2 & l & Hrun & Hl2 & Hother & Hq2 & Hlen).
    { rewrite Hh. apply lookup_insert_eq. }
    exists m2, t2, (x :: l). cbn [repeat run_calls run_call]. rewrite Hr. simpl.
    split; [exact Hrun|]. split; [exact Hl2|]. split.
    + intros k Hk. rewrite (Hother k Hk), Hh. now apply lookup_insert_ne.
    + rewrite Hq2, Hq, <- app_assoc. simpl. auto.
Qed.

Lemma wrap_prefix :
  exists m1 : Machine,
    run_calls [Connect 1; Connect 1;
               Receive 2%N ("{" +:+ nl +:+ "b" +:+ nl);
               Receive 1%N ("a" +:+ nl)] (boot slow_clock) = Ok m1 /\
    heap m1 !! 1%N = Some (mkBulk "bulk:" 1 0 1700000000 0) /\
    heap m1 !! 2%N = Some (mkBulk "bulk: b" 1 1 1700000000 1) /\
    g_fileLogQueue (statics m1) = [("bulk1700000000_0.log", "bulk: a")].
Proof.
  assert (E : match run_calls [Connect 1; Connect 1;
                               Receive 2%N ("{" +:+ nl +:+ "b" +:+ nl);
                               Receive 1%N ("a" +:+ nl)] (boot slow_clock) with
              | Ok m => Some (heap m !! 1%N, heap m !! 2%N, g_fileLogQueue (statics m))
              | UB => None
              end = Some (Some (mkBulk "bulk:" 1 0 1700000000 0),
                          Some (mkBulk "bulk: b" 1 1 1700000000 1),
                          [("bulk1700000000_0.log", "bulk: a")]))
    by (vm_compute; reflexivity).
  destruct (run_calls _ (boot slow_clock)) as [m1|]; [|discriminate].
  injection E as E1 E2 E3. exists m1. auto.
Qed.

Lemma close_held_block (m : Machine) :
  heap m !! 2%N = Some (mkBulk "bulk: b" 1 1 1700000000 1) ->
  exists m' : Machine,
    receive 2%N ("}" +:+ nl) m = Ok m' /\
    g_fileLogQueue (statics m') =
      g_fileLogQueue (statics m)
      ++ [(file_name 1700000000 (postfix_counter (statics m)), "bulk: b")].
Proof.
  intros Hl. unfold receive. simpl N.eqb. cbv iota. rewrite Hl.
  eexists. split; reflexivity.
Qed.

(** C4 as stated fails: the counter is an [unsigned int].  In the run
    [wrap_calls] the first batch of session one and the batch of session
    two start in the same second and are [2^32] flushes apart; both go to
    the file "bulk1700000000_0.log". *)
Lemma file_names_collide_after_wrap :
  exists m : Machine,
    run_calls wrap_calls (boot slow_clock) = Ok m /\
    g_fileLogQueue (statics m) !! 0%nat =
      Some ("bulk1700000000_0.log", "bulk: a") /\
    g_fileLogQueue (statics m) !! Z.to_nat UINT_MOD =
      Some ("bulk1700000000_0.log", "bulk: b") /\
    0%nat <> Z.to_nat UINT_MOD.
Proof.
  unfold wrap_calls.
  assert (Hn : exists n : nat, n = Z.to_nat (UINT_MOD - 1) /\ Z.of_nat n = UINT_MOD - 1 /\
                               Z.to_nat UINT_MOD = S n).
  { exists (Z.to_nat (UINT_MOD - 1)). unfold UINT_MOD. lia. }
  destruct Hn as (n & <- & Hn & HS). rewrite HS.
  destruct wrap_prefix as (m1 & Hrun1 & Hl1 & Hl2 & Hq1).
  destruct (repeat_flushes 1%N n ltac:(discriminate) m1 _ Hl1)
    as (m2 & t2 & l & Hrun2 & _ & Hother & Hq2 & Hlen).
  destruct (close_held_block m2) as (m3 & Hrun3 & Hq3).
  { rewrite Hother by discriminate. exact Hl2. }
  assert (Hwf : names_wf (statics m2)).
  { apply (names_wf_run_calls
             ([Connect 1; Connect 1; Receive 2%N ("{" +:+ nl +:+ "b" +:+ nl);
               Receive 1%N ("a" +:+ nl)] ++ repeat (Receive 1%N ("a" +:+ nl)) n)
             (boot slow_clock) m2 (names_wf_boot slow_clock)).
    rewrite run_calls_app, Hrun1. exact Hrun2. }
  destruct Hwf as [Hc _].
  assert (Hc0 : postfix_counter (statics m2) = 0).
  { rewrite Hc, Hq2, Hq1, length_app, Hlen. simpl length.
    replace (Z.of_nat (1 + n)) with (1 * UINT_MOD) by lia.
    apply Z_mod_mult. }
  exists m3. split.
  { rewrite run_calls_app, Hrun1. simpl mbind.
    rewrite run_calls_app, Hrun2. simpl mbind.
    cbn [run_calls run_call]. rewrite Hrun3. reflexivity. }
  rewrite Hq3, Hq2, Hq1, Hc0. split; [reflexivity|]. split; [|discriminate].
  change (file_name 1700000000 0) with "bulk1700000000_0.log".
  replace (S n) with (length ([("bulk1700000000_0.log", "bulk: a")] ++ l))
    by (rewrite length_app, Hlen; reflexivity).
  apply list_lookup_middle. reflexivity.
Qed.

(** ** C9: shutdown *)

(** A worker leaves its loop only on an empty queue: what the destructor
    finds enqueued is never abandoned by a worker that exits. *)
Lemma exit_only_when_drained {A : Type} (stop : bool) (q q' : list A)
    (pc : worker_pc A) (out : list A) :
  logger_step stop q pc = Some (Exited, q', out) ->
  stop = true /\ q = [] /\ q' = [].
Proof.
  destruct pc; simpl; try discriminate.
  destruct q; [destruct stop|]; intros [= <-]; auto; discriminate.
Qed.

(** C9, on the code.  The destructor stores the stop flag and goes
    straight to [join]; it notifies neither condition variable.  (1) When
    it starts while the three workers wait on empty queues, the process
    reaches a state in which the flag is set, the destructor sits in the
    first [join], all workers are still blocked, and nothing but a
    spurious wake-up or a further flush can make any thread move.  (2)
    When one batch was flushed before, [log] having notified [g_con_cv]
    ahead of the console push and [g_file_cv] after it, the console item is
    still in its queue in that state, unwritten, with the console worker
    blocked. *)
Theorem shutdown_does_not_wake_workers :
  (exists s : Logger,
      run idle_then_exit started = Some s /\
      s_bStopWorkers s = true /\ dtor s = Joining 0 /\
      console_thread s = Blocked /\ file_thread1 s = Blocked /\ file_thread2 s = Blocked /\
      forall e : event,
        is_spurious e = false -> is_producer e = false -> step e s = None) /\
  (exists s : Logger,
      run flush_then_exit started = Some s /\
      s_bStopWorkers s = true /\ dtor s = Joining 0 /\
      console_thread s = Blocked /\
      con_queue s = ["bulk: a"] /\ console_out s = [] /\
      files_out s = [("bulk1700000000_0.log", "bulk: a")] /\
      forall e : event,
        is_spurious e = false -> is_producer e = false -> step e s = None).
Proof.
  split.
  - exists (mkLogger true [] [] Blocked Blocked Blocked [] [] (Joining 0)).
    split; [vm_compute; reflexivity|]. repeat (split; [reflexivity|]).
    intros [[|[|[|k]]]| | | | | |] Hs Hp; try discriminate; reflexivity.
  - exists (mkLogger true ["bulk: a"] [] Blocked Blocked Blocked []
                     [("bulk1700000000_0.log", "bulk: a")] (Joining 0)).
    split; [vm_compute; reflexivity|]. repeat (split; [reflexivity|]).
    intros [[|[|[|k]]]| | | | | |] Hs Hp; try discriminate; reflexivity.
Qed.

(** * Further properties of the code *)

(** ** The line loop of [receive] *)

Lemma has_char_app (c : ascii) (s1 s2 : string) :
  has_char c (s1 +:+ s2) = has_char c s1 || has_char c s2.
Proof.
  induction s1 as [|a s1 IH]; [reflexivity|].
  rewrite append_cons. simpl. rewrite IH. now rewrite orb_assoc.
Qed.

Lemma terminated_cons_nl (rest : string) :
  terminated (String "010" rest) = terminated rest.
Proof. destruct rest; reflexivity. Qed.

Lemma terminated_app_cons (acc : string) (c : ascii) (rest : string) :
  terminated (acc +:+ String c rest) = terminated (String c rest).
Proof.
  induction acc as [|a acc IH]; [reflexivity|].
  rewrite append_cons. simpl terminated at 1.
  destruct (acc +:+ String c rest) eqn:E.
  - destruct acc; discriminate.
  - exact IH.
Qed.

Lemma unterminated_line (acc : string) :
  has_char "010" acc = false -> acc <> "" -> terminated acc = false.
Proof.
  induction acc as [|a acc IH]; intros Hn Hne; [contradiction|].
  simpl in Hn. apply orb_false_iff in Hn as [Ha Hacc].
  destruct acc as [|a' acc]; [exact Ha|].
  change (terminated (String a (String a' acc))) with (terminated (String a' acc)).
  apply IH; [exact Hacc | discriminate].
Qed.

Lemma string_eqb_empty (s : string) : String.eqb s "" = true <-> s = "".
Proof. apply String.eqb_eq. Qed.

Lemma getlines_unlines (data : string) :
  forall acc : string,
    has_char "010" acc = false ->
    unlines (getlines acc data) =
      if terminated (acc +:+ data) then acc +:+ data else acc +:+ data +:+ nl.
Proof.
  induction data as [|c data IH]; intros acc Hacc.
  - rewrite append_nil_r. simpl getlines.
    destruct (String.eqb acc "") eqn:E.
    + apply String.eqb_eq in E. now subst acc.
    + apply String.eqb_neq in E. rewrite (unterminated_line acc Hacc E).
      simpl. now rewrite append_nil_r.
  - simpl getlines. destruct (Ascii.eqb_spec c "010"%char) as [->|Hc].
    + simpl unlines. fold (unlines (getlines "" data)).
      rewrite (IH "" eq_refl), append_nil_l, terminated_app_cons, terminated_cons_nl.
      unfold nl. destruct (terminated data); rewrite ?append_assoc; reflexivity.
    + rewrite IH.
      * now rewrite !append_assoc.
      * rewrite has_char_app, Hacc. simpl.
        destruct (Ascii.eqb_spec c "010"%char); [contradiction | reflexivity].
Qed.

Lemma getlines_no_newline (data : string) :
  forall acc : string,
    has_char "010" acc = false ->
    Forall (fun l => has_char "010" l = false) (getlines acc data).
Proof.
  induction data as [|c data IH]; intros acc Hacc; simpl.
  - destruct (String.eqb acc ""); repeat constructor; exact Hacc.
  - destruct (Ascii.eqb_spec c "010"%char) as [->|Hc].
    + constructor; [exact Hacc | now apply IH].
    + apply IH. rewrite has_char_app, Hacc. simpl.
      destruct (Ascii.eqb_spec c "010"%char); [contradiction | reflexivity].
Qed.

(** X1.  The line loop of [receive] loses no byte: the lines it reads,
    written back each with its terminator, are the buffer itself when the
    buffer is empty or ends with a newline, and the buffer with one newline
    added otherwise.  No line it reads contains a newline, and no command it
    passes on is empty. *)
Theorem receive_lines_round_trip (data : string) :
  unlines (getlines "" data) = (if terminated data then data else data +:+ nl) /\
  Forall (fun l => has_char "010" l = false) (getlines "" data) /\
  Forall (fun c => c <> "" /\ has_char "010" c = false) (commands_of data).
Proof.
  split; [apply (getlines_unlines data "" eq_refl)|].
  pose proof (getlines_no_newline data "" eq_refl) as Hnl.
  split; [exact Hnl|].
  unfold commands_of. apply Forall_forall. intros c Hc.
  apply list_elem_of_filter in Hc as [Hne Hin].
  split.
  - intros ->. discriminate.
  - rewrite Forall_forall in Hnl. now apply Hnl.
Qed.

Lemma getlines_app (d1 d2 : string) :
  forall acc : string,
    has_char "010" acc = false ->
    terminated (acc +:+ d1) = true ->
    getlines acc (d1 +:+ d2) = getlines acc d1 ++ getlines "" d2.
Proof.
  induction d1 as [|c d1 IH]; intros acc Hacc Hterm.
  - rewrite append_nil_r in Hterm. rewrite append_nil_l.
    destruct acc as [|a acc]; [reflexivity|].
    rewrite unterminated_line in Hterm; [discriminate | exact Hacc | discriminate].
  - rewrite append_cons. simpl getlines.
    destruct (Ascii.eqb_spec c "010"%char) as [->|Hc].
    + rewrite terminated_app_cons, terminated_cons_nl in Hterm.
      rewrite (IH "" eq_refl Hterm). reflexivity.
    + apply IH.
      * rewrite has_char_app, Hacc. simpl.
        destruct (Ascii.eqb_spec c "010"%char); [contradiction | reflexivity].
      * now rewrite append_assoc.
Qed.

Lemma commands_of_app (d1 d2 : string) :
  terminated d1 = true ->
  commands_of (d1 +:+ d2) = commands_of d1 ++ commands_of d2.
Proof.
  intros Hterm. unfold commands_of.
  rewrite (getlines_app d1 d2 "" eq_refl Hterm). apply filter_app.
Qed.

Lemma machine_eta (m : Machine) : mkMachine (statics m) (heap m) = m.
Proof. now destruct m. Qed.

(** X2.  A buffer cut at a line boundary can be delivered in two calls:
    when the first part is empty or ends with a newline, [receive] on the
    whole buffer is [receive] on the first part followed by [receive] on
    the second, for every handle and every process state (undefined
    behaviour included). *)
Theorem receive_split_at_line (h : N) (d1 d2 : string) (m : Machine) :
  terminated d1 = true ->
  receive h (d1 +:+ d2) m = m1 ← receive h d1 m; receive h d2 m1.
Proof.
  intros Hterm. unfold receive.
  destruct (N.eqb_spec h nullptr) as [Hn|Hn]; simpl.
  - destruct (N.eqb_spec h nullptr); [reflexivity | contradiction].
  - destruct (heap m !! h) as [b|] eqn:Hl; [|reflexivity].
    fold (commands_of (d1 +:+ d2)) (commands_of d1) (commands_of d2).
    rewrite (commands_of_app d1 d2 Hterm), process_all_app.
    destruct (process_all (commands_of d1) b (statics m)) as [[b1 g1]|]; [|reflexivity].
    simpl. destruct (N.eqb_spec h nullptr); [contradiction|].
    rewrite lookup_insert_eq.
    destruct (process_all (commands_of d2) b1 g1) as [[b2 g2]|]; [|reflexivity].
    simpl. now rewrite insert_insert_eq.
Qed.

Lemma receive_split_at_line_witness :
  terminated ("a" +:+ nl) = true /\
  receive 1%N (("a" +:+ nl) +:+ ("b" +:+ nl)) (connect 2 (boot (fun _ => 1700000000))).2 =
    m1 ← receive 1%N ("a" +:+ nl) (connect 2 (boot (fun _ => 1700000000))).2;
    receive 1%N ("b" +:+ nl) m1.
Proof.
  split; [reflexivity|]. apply receive_split_at_line. reflexivity.
Defined.

Lemma getlines_blank (data : string) :
  blank data = true -> commands_of data = [].
Proof.
  unfold commands_of. induction data as [|c data IH]; intros Hb; [reflexivity|].
  simpl in Hb. apply andb_true_iff in Hb as [Hc Hrest].
  simpl getlines. rewrite Hc. rewrite filter_cons. simpl. now apply IH.
Qed.

(** X3.  A buffer that holds no command (it is empty, or nothing but
    newlines) changes nothing: on the null handle and on a live handle
    [receive] returns the process state it was given. *)
Theorem receive_blank_noop (h : N) (data : string) (m : Machine) :
  blank data = true ->
  h = nullptr \/ is_Some (heap m !! h) ->
  receive h data m = Ok m.
Proof.
  intros Hb Hh. unfold receive.
  destruct (N.eqb_spec h nullptr) as [Hn|Hn]; [reflexivity|].
  destruct Hh as [Hh|[b Hl]]; [contradiction|].
  rewrite Hl. fold (commands_of data). rewrite (getlines_blank data Hb). simpl.
  rewrite (insert_id _ _ _ Hl). now rewrite machine_eta.
Qed.

Lemma receive_blank_noop_witness :
  blank (nl +:+ nl) = true /\
  (1%N = nullptr \/ is_Some (heap (connect 2 (boot (fun _ => 1700000000))).2 !! 1%N)) /\
  receive 1%N (nl +:+ nl) (connect 2 (boot (fun _ => 1700000000))).2 =
    Ok (connect 2 (boot (fun _ => 1700000000))).2.
Proof.
  assert (Hlive : is_Some (heap (connect 2 (boot (fun _ => 1700000000))).2 !! 1%N))
    by (eexists; vm_compute; reflexivity).
  split; [reflexivity|]. split; [right; exact Hlive|].
  apply receive_blank_noop; [reflexivity | right; exact Hlive].
Defined.

(** ** Sessions side by side *)

(** X4.  A call of the session API that returns leaves every other live
    session as it was: [connect] never reuses the address of a live
    session, and [receive] and [disconnect] touch the session of their own
    handle only. *)
Theorem sessions_isolated (c : call) (m m' : Machine) (k : N) (b : Bulk) :
  run_call c m = Ok m' ->
  call_handle c <> Some k ->
  heap m !! k = Some b ->
  heap m' !! k = Some b.
Proof.
  intros Hrun Hk Hl. destruct c as [bulk|h data|h]; cbn [run_call call_handle] in *.
  - assert (E : (connect bulk m).2 = m') by (now injection Hrun).
    rewrite <- E.
    destruct (connect_spec bulk m) as (_ & Hfree & Hheap & _).
    rewrite Hheap, lookup_insert_ne; [exact Hl|]. intros E'. congruence.
  - assert (Hne : h <> k) by congruence. unfold receive in Hrun.
    destruct (h =? nullptr)%N; [now injection Hrun as <-|].
    destruct (heap m !! h) as [bh|]; [|discriminate].
    destruct (process_all _ bh (statics m)) as [[b1 g1]|]; [|discriminate].
    injection Hrun as <-. simpl. now rewrite lookup_insert_ne.
  - assert (Hne : h <> k) by congruence. unfold disconnect in Hrun.
    destruct (h =? nullptr)%N; [now injection Hrun as <-|].
    destruct (heap m !! h) as [bh|]; [|discriminate].
    destruct (flush bh (statics m)) as [b1 g1].
    injection Hrun as <-. simpl. now rewrite lookup_delete_ne.
Qed.

Lemma sessions_isolated_witness :
  exists m' : Machine,
    run_call (Receive 2%N ("x" +:+ nl))
             (connect 1 (connect 3 (boot (fun _ => 1700000000))).2).2 = Ok m' /\
    call_handle (Receive 2%N ("x" +:+ nl)) <> Some 1%N /\
    heap (connect 1 (connect 3 (boot (fun _ => 1700000000))).2).2 !! 1%N =
      Some (mkBulk "bulk:" 3 0 1700000000 0) /\
    heap m' !! 1%N = Some (mkBulk "bulk:" 3 0 1700000000 0).
Proof.
  assert (H0 : is_Some (match run_call (Receive 2%N ("x" +:+ nl))
                   (connect 1 (connect 3 (boot (fun _ => 1700000000))).2).2 with
                        | Ok m' => Some tt
                        | UB => None
                        end))
    by (vm_compute; eauto).
  destruct (run_call (Receive 2%N ("x" +:+ nl))
              (connect 1 (connect 3 (boot (fun _ => 1700000000))).2).2)
    as [m'|] eqn:H1; [|destruct H0; discriminate].
  assert (H2 : call_handle (Receive 2%N ("x" +:+ nl)) <> Some 1%N) by discriminate.
  assert (H3 : heap (connect 1 (connect 3 (boot (fun _ => 1700000000))).2).2 !! 1%N =
               Some (mkBulk "bulk:" 3 0 1700000000 0)) by (vm_compute; reflexivity).
  exists m'. split; [reflexivity|]. split; [exact H2|]. split; [exact H3|].
  exact (sessions_isolated _ _ _ _ _ H1 H2 H3).
Defined.

(** ** Partial batches and unterminated blocks *)

(** Plain commands that stay below the threshold only accumulate. *)
Lemma abs_run_below (capacity : Z) (l : list string) :
  forall p : list string,
    forallb plain l = true ->
    Z.of_nat (length p + length l) < capacity ->
    abs_run capacity l (p, 0) = ((p ++ l, 0), []).
Proof.
  induction l as [|cmd l IH]; intros p Hpl Hlen.
  - simpl. now rewrite app_nil_r.
  - simpl in Hpl. apply andb_true_iff in Hpl as [Hc Hl].
    cbn [abs_run]. unfold abs_step.
    rewrite (plain_not_open _ Hc), (plain_not_close _ Hc), length_app.
    simpl length in *.
    replace (Z.of_nat (length p + 1) =? capacity) with false
      by (symmetry; apply Z.eqb_neq; lia).
    cbn [andb]. rewrite IH; auto.
    + now rewrite <- app_assoc.
    + rewrite length_app. simpl length. lia.
Qed.

(** X5.  Plain commands at any count: a session of capacity [C >= 1] that
    processes plain commands pushes them in arrival order in batches of
    exactly [C]; the fewer than [C] commands left over stay buffered, and
    leave as one last batch on the flush of [disconnect] (nothing is pushed
    then when none is left over). *)
Theorem threshold_batches_with_remainder
    (capacity : Z) (g0 : Globals) (cmds : list string) :
  1 <= capacity < SIZE_MOD ->
  forallb plain cmds = true ->
  exists (b : Bulk) (g : Globals) (batches : list (list string)) (rest : list string),
    process_all cmds (Bulk_ctor capacity g0).1 (Bulk_ctor capacity g0).2 = Ok (b, g) /\
    pushed g0 g (map wire_format batches) /\
    concat batches ++ rest = cmds /\
    Forall (fun l => Z.of_nat (length l) = capacity) batches /\
    Z.of_nat (length rest) < capacity /\
    pushed g (flush b g).2 (map wire_format (batch_of rest)).
Proof.
  intros Hcap Hpl.
  set (q := Z.to_nat (Z.of_nat (length cmds) / capacity)).
  set (n := Z.to_nat (Z.of_nat q * capacity)).
  assert (Hq : Z.of_nat q = Z.of_nat (length cmds) / capacity)
    by (subst q; rewrite Z2Nat.id; [reflexivity | apply Z.div_pos; lia]).
  pose proof (Z.div_mod (Z.of_nat (length cmds)) capacity ltac:(lia)) as Hdm.
  pose proof (Z.mod_pos_bound (Z.of_nat (length cmds)) capacity ltac:(lia)) as Hr.
  assert (Hn : Z.of_nat n = Z.of_nat q * capacity) by (subst n; nia).
  assert (Hle : (n <= length cmds)%nat) by nia.
  rewrite <- (take_drop n cmds) in Hpl |- *.
  rewrite forallb_app in Hpl. apply andb_true_iff in Hpl as [Hpl1 Hpl2].
  destruct (process_chunks q (take n cmds) (Bulk_ctor capacity g0).1
              (Bulk_ctor capacity g0).2 (pending_ctor capacity g0) eq_refl)
    as (b1 & g1 & batches & Hrun1 & Hp1 & Hd1 & Hc1 & Hq1 & Hcat & Hall & Hlen);
    [exact Hcap | exact Hpl1 | simpl; rewrite length_take; lia |].
  simpl in Hc1.
  destruct (plain_cmds_all (drop n cmds) Hpl2) as [Hpc Hmk].
  assert (Hrest : Z.of_nat (length (drop n cmds)) < capacity)
    by (rewrite length_drop; nia).
  destruct (process_all_refines (drop n cmds) b1 g1 [] Hp1)
    as (b2 & g2 & Hrun2 & Hp2 & Hd2 & Hc2 & Hq2).
  { rewrite Hpc. simpl length. lia. }
  { rewrite Hmk, Hd1. simpl. unfold INT_MAX. lia. }
  rewrite Hd1, Hc1, (abs_run_below capacity (drop n cmds) [] Hpl2) in * by (simpl; lia).
  simpl in Hp2, Hd2, Hq2.
  exists b2, g2, batches, (drop n cmds).
  split; [rewrite process_all_app, Hrun1; exact Hrun2|].
  split. { pose proof (pushed_trans _ _ _ _ _ Hq1 Hq2) as Hq12.
           rewrite app_nil_r in Hq12.
           exact (pushed_trans g0 _ g2 [] _ (pushed_ctor capacity g0) Hq12). }
  split; [now rewrite Hcat|]. split; [exact Hall|]. split; [exact Hrest|].
  now apply flush_pending.
Qed.

Lemma threshold_batches_with_remainder_witness :
  1 <= 3 < SIZE_MOD /\
  forallb plain ["cmd1"; "cmd2"; "cmd3"; "cmd4"; "cmd5"] = true /\
  exists (b : Bulk) (g : Globals) (batches : list (list string)) (rest : list string),
    process_all ["cmd1"; "cmd2"; "cmd3"; "cmd4"; "cmd5"]
      (Bulk_ctor 3 (mkGlobals (fun _ => 1700000000) 0 0 [] [])).1
      (Bulk_ctor 3 (mkGlobals (fun _ => 1700000000) 0 0 [] [])).2 = Ok (b, g) /\
    pushed (mkGlobals (fun _ => 1700000000) 0 0 [] []) g (map wire_format batches) /\
    concat batches ++ rest = ["cmd1"; "cmd2"; "cmd3"; "cmd4"; "cmd5"] /\
    Forall (fun l => Z.of_nat (length l) = 3) batches /\
    Z.of_nat (length rest) < 3 /\
    pushed g (flush b g).2 (map wire_format (batch_of rest)).
Proof.
  split; [unfold SIZE_MOD; lia|]. split; [reflexivity|].
  apply threshold_batches_with_remainder; [unfold SIZE_MOD; lia | reflexivity].
Defined.

(** ** The queues only grow, and together *)

Lemma extends_refl (g : Globals) : extends g g.
Proof. exists []. simpl. now rewrite !app_nil_r. Qed.

Lemma extends_trans (g g1 g2 : Globals) :
  extends g g1 -> extends g1 g2 -> extends g g2.
Proof.
  intros (l1 & Hf1 & Hc1) (l2 & Hf2 & Hc2). exists (l1 ++ l2).
  rewrite Hf2, Hf1, Hc2, Hc1, map_app, !app_assoc. auto.
Qed.

Lemma extends_log (b : Bulk) (g : Globals) : extends g (log b g).2.
Proof.
  unfold log. destruct (0 <? m_nCmds b); simpl.
  - exists [(file_name (m_time b) (postfix_counter g), m_cmds b)]. auto.
  - exists []. simpl. now rewrite !app_nil_r.
Qed.

Lemma extends_flush (b : Bulk) (g : Globals) : extends g (flush b g).2.
Proof.
  unfold flush. destruct (m_nestingLvl b =? 0); [apply extends_log | apply extends_refl].
Qed.

Lemma extends_push_cmd (cmd : string) (b : Bulk) (g : Globals) :
  extends g (push_cmd cmd b g).2.
Proof.
  destruct (push_cmd_queues cmd b g) as [Hc Hf]. exists [].
  simpl. rewrite !app_nil_r. auto.
Qed.

Lemma extends_process (cmd : string) (b b' : Bulk) (g g' : Globals) :
  process cmd b g = Ok (b', g') -> extends g g'.
Proof.
  unfold process. destruct (String.eqb cmd "{").
  - assert (Hf : extends g (if m_nestingLvl b =? 0 then flush b g else (b, g)).2)
      by (destruct (m_nestingLvl b =? 0); [apply extends_flush | apply extends_refl]).
    destruct (if m_nestingLvl b =? 0 then flush b g else (b, g)) as [b1 g1].
    destruct (int_incr (m_nestingLvl b1)); simpl; [|discriminate].
    intros [= _ <-]. exact Hf.
  - destruct (String.eqb cmd "}").
    + destruct (int_decr (m_nestingLvl b)) as [d|]; simpl; [|discriminate].
      destruct (d =? 0); intros [= E].
      * apply (f_equal snd) in E. simpl in E. subst g'. apply extends_flush.
      * subst g'. apply extends_refl.
    + pose proof (extends_push_cmd cmd b g) as H1.
      destruct (push_cmd cmd b g) as [b1 g1]. simpl in H1.
      destruct (_ && _); intros [= E].
      * apply (f_equal snd) in E. simpl in E. subst g'.
        eapply extends_trans; [exact H1 | apply extends_flush].
      * now subst g'.
Qed.

Lemma extends_process_all (cmds : list string) :
  forall (b b' : Bulk) (g g' : Globals),
    process_all cmds b g = Ok (b', g') -> extends g g'.
Proof.
  induction cmds as [|cmd cmds IH]; intros b b' g g'.
  - intros [= _ <-]. apply extends_refl.
  - cbn [process_all]. destruct (process cmd b g) as [[b1 g1]|] eqn:E; simpl; [|discriminate].
    intros Hrest. eapply extends_trans; [eapply extends_process; eauto | eapply IH; eauto].
Qed.

Lemma extends_run_call (c : call) (m m' : Machine) :
  run_call c m = Ok m' -> extends (statics m) (statics m').
Proof.
  destruct c as [bulk|h data|h]; simpl.
  - intros [= <-]. unfold connect, Bulk_ctor. simpl. exists [].
    simpl. now rewrite !app_nil_r.
  - unfold receive. destruct (h =? nullptr)%N; [intros [= <-]; apply extends_refl|].
    destruct (heap m !! h) as [b|]; [|discriminate].
    destruct (process_all _ b (statics m)) as [[b1 g1]|] eqn:E; simpl; [|discriminate].
    intros [= <-]. simpl. eapply extends_process_all; eauto.
  - unfold disconnect. destruct (h =? nullptr)%N; [intros [= <-]; apply extends_refl|].
    destruct (heap m !! h) as [b|]; [|discriminate].
    pose proof (extends_flush b (statics m)) as Hf.
    destruct (flush b (statics m)) as [b1 g1]. intros [= <-]. exact Hf.
Qed.

(** X6.  Whatever calls of the session API a process makes, on whatever
    handles, what was pushed stays pushed: each queue after the calls is the
    queue before them with new items at its end, and the strings added to
    the console queue are, in the same order, the contents of the files
    added to the file queue.  In particular two queues that agree keep
    agreeing. *)
Theorem queues_grow_together (calls : list call) :
  forall m m' : Machine,
    run_calls calls m = Ok m' ->
    extends (statics m) (statics m') /\
    (queues_agree (statics m) -> queues_agree (statics m')).
Proof.
  assert (Hext : forall m m', run_calls calls m = Ok m' -> extends (statics m) (statics m')).
  { induction calls as [|c calls IH]; intros m m'.
    - intros [= <-]. apply extends_refl.
    - cbn [run_calls]. destruct (run_call c m) as [m1|] eqn:E; simpl; [|discriminate].
      intros Hrest. eapply extends_trans; [eapply extends_run_call; eauto | eauto]. }
  intros m m' Hrun. split; [now apply Hext|].
  destruct (Hext m m' Hrun) as (l & Hf & Hc). unfold queues_agree.
  intros Hag. now rewrite Hf, Hc, map_app, Hag.
Qed.

Lemma queues_grow_together_witness :
  exists m' : Machine,
    run_calls [Connect 2; Receive 1%N ("a" +:+ nl +:+ "b" +:+ nl +:+ "c" +:+ nl);
               Disconnect 1%N] (boot (fun _ => 1700000000)) = Ok m' /\
    extends (statics (boot (fun _ => 1700000000))) (statics m') /\
    (queues_agree (statics (boot (fun _ => 1700000000))) -> queues_agree (statics m')).
Proof.
  assert (H0 : is_Some (match run_calls [Connect 2;
                   Receive 1%N ("a" +:+ nl +:+ "b" +:+ nl +:+ "c" +:+ nl);
                   Disconnect 1%N] (boot (fun _ => 1700000000)) with
                        | Ok m' => Some tt
                        | UB => None
                        end))
    by (vm_compute; eauto).
  destruct (run_calls _ (boot (fun _ => 1700000000))) as [m'|] eqn:H1;
    [|destruct H0; discriminate].
  exists m'. split; [reflexivity|].
  exact (queues_grow_together _ _ _ H1).
Defined.

Lemma pushed_nothing (g g' : Globals) :
  pushed g g' [] -> extends g g' ->
  g_consoleLogQueue g' = g_consoleLogQueue g /\
  g_fileLogQueue g' = g_fileLogQueue g.
Proof.
  intros (Hc & _ & Hlen) (l & Hf & _).
  rewrite Hf, length_app in Hlen. simpl in Hlen.
  destruct l; [|simpl in Hlen; lia].
  rewrite Hf, Hc, !app_nil_r. auto.
Qed.

(** ** Blocks that hold nothing, blocks that never close *)

(** X7.  A block that holds no plain command pushes nothing: after the
    open marker has been processed at nesting level zero, a body of nothing
    but matched inner markers and the matching close marker leave both
    queues as they were and the level at zero. *)
Theorem empty_block_pushes_nothing (b : Bulk) (g : Globals) (body : list string) :
  m_nestingLvl b = 0 ->
  block_body body = true ->
  plain_cmds body = [] ->
  Z.of_nat (length (markers body)) + 2 <= INT_MAX ->
  exists (b0 : Bulk) (g0 : Globals) (b' : Bulk) (g' : Globals),
    process "{" b g = Ok (b0, g0) /\
    process_all (body ++ ["}"]) b0 g0 = Ok (b', g') /\
    g_consoleLogQueue g' = g_consoleLogQueue g0 /\
    g_fileLogQueue g' = g_fileLogQueue g0 /\
    m_nestingLvl b' = 0.
Proof.
  intros Hd Hbal Hnone Hdep. unfold block_body in Hbal.
  destruct (process_open_at_zero b g Hd) as (b0 & g0 & Hopen & Hp0 & Hd0 & Hc0).
  assert (Hbal' : balanced_from 0 (body ++ []) = true) by now rewrite app_nil_r.
  destruct (process_inside_block body [] b0 g0 Hp0 Hd0 Hbal')
    as (b1 & g1 & k & Hrun & Hp1 & Hd1 & Hc1 & Hk & Hq1);
    rewrite ?app_nil_r, ?Hnone; auto; [simpl; unfold SIZE_MOD; lia|].
  simpl in Hk. apply Nat.eqb_eq in Hk. subst k. simpl in Hd1.
  rewrite Hnone in Hp1.
  destruct (process_refines "}" b1 g1 [] Hp1) as (b2 & g2 & Hstep & Hp2 & Hd2 & Hc2 & Hq2).
  { discriminate. }
  { intros _. rewrite Hd1. unfold INT_MIN, INT_MAX. lia. }
  rewrite Hd1 in Hd2, Hq2. simpl in Hd2, Hq2.
  assert (Hall : process_all (body ++ ["}"]) b0 g0 = Ok (b2, g2))
    by (rewrite process_all_app, Hrun; simpl; now rewrite Hstep).
  destruct (pushed_nothing g0 g2 (pushed_trans _ _ _ [] [] Hq1 Hq2)
              (extends_process_all _ _ _ _ _ Hall)) as [Hc Hf].
  exists b0, g0, b2, g2. auto 10.
Qed.

Lemma empty_block_pushes_nothing_witness :
  m_nestingLvl (mkBulk "bulk: a" 3 1 1700000000 0) = 0 /\
  block_body ["{"; "}"] = true /\
  plain_cmds ["{"; "}"] = [] /\
  Z.of_nat (length (markers ["{"; "}"])) + 2 <= INT_MAX /\
  exists (b0 : Bulk) (g0 : Globals) (b' : Bulk) (g' : Globals),
    process "{" (mkBulk "bulk: a" 3 1 1700000000 0)
                (mkGlobals (fun _ => 1700000000) 2 0 [] []) = Ok (b0, g0) /\
    process_all (["{"; "}"] ++ ["}"]) b0 g0 = Ok (b', g') /\
    g_consoleLogQueue g' = g_consoleLogQueue g0 /\
    g_fileLogQueue g' = g_fileLogQueue g0 /\
    m_nestingLvl b' = 0.
Proof.
  split; [reflexivity|]. split; [reflexivity|]. split; [reflexivity|].
  split; [vm_compute; discriminate|].
  apply empty_block_pushes_nothing;
    [reflexivity | reflexivity | reflexivity | vm_compute; discriminate].
Defined.

(** X8.  Commands inside a block that is still open when the session ends
    are lost.  Open a session, send it an open marker followed by any part
    of a well-nested body, the matching close marker not among it, and
    disconnect: [receive] and [disconnect] return, both queues are what
    they were before [connect], and the session is released. *)
Theorem unterminated_block_is_dropped
    (capacity : Z) (m : Machine) (data : string) (pre suf : list string) :
  commands_of data = "{" :: pre ->
  balanced_from 0 (pre ++ suf) = true ->
  Z.of_nat (length (plain_cmds (pre ++ suf))) < SIZE_MOD ->
  Z.of_nat (length (markers (pre ++ suf))) + 2 <= INT_MAX ->
  exists m1 m2 : Machine,
    receive (connect capacity m).1 data (connect capacity m).2 = Ok m1 /\
    disconnect (connect capacity m).1 m1 = Ok m2 /\
    g_consoleLogQueue (statics m2) = g_consoleLogQueue (statics m) /\
    g_fileLogQueue (statics m2) = g_fileLogQueue (statics m) /\
    heap m2 = heap m.
Proof.
  intros Hcmds Hbal Hlen Hdep.
  destruct (connect_spec capacity m) as (Hn & Hfree & Hheap & Hst).
  set (h := (connect capacity m).1) in *. set (m0 := (connect capacity m).2) in *.
  assert (Hl0 : heap m0 !! h = Some (Bulk_ctor capacity (statics m)).1)
    by (rewrite Hheap; apply lookup_insert_eq).
  destruct (process_open_at_zero (Bulk_ctor capacity (statics m)).1 (statics m0) eq_refl)
    as (b0 & g0 & Hopen & Hp0 & Hd0 & Hc0).
  destruct (process_inside_block pre suf b0 g0 Hp0 Hd0 Hbal Hlen Hdep)
    as (b1 & g1 & k & Hrun & Hp1 & Hd1 & Hc1 & Hk & Hq1).
  assert (Hall : process_all (commands_of data) (Bulk_ctor capacity (statics m)).1
                   (statics m0) = Ok (b1, g1))
    by (rewrite Hcmds; cbn [process_all]; rewrite Hopen; exact Hrun).
  pose proof (receive_live h data m0 _ b1 g1 Hn Hl0 Hall) as Hrecv.
  set (m1 := mkMachine g1 (<[h:=b1]> (heap m0))) in *.
  pose proof (disconnect_live h m1 b1 Hn (lookup_insert_eq (heap m0) h b1)) as Hdis.
  rewrite (flush_gated b1 (statics m1)) in Hdis by (rewrite Hd1; lia).
  exists m1, (mkMachine (statics m1) (delete h (heap m1))).
  split; [exact Hrecv|]. split; [exact Hdis|].
  assert (Hquiet : pushed (statics m) g1 []).
  { destruct (process_refines "{" (Bulk_ctor capacity (statics m)).1 (statics m0) []
                (pending_ctor capacity (statics m)))
      as (b0' & g0' & Hopen' & _ & _ & _ & Hq0); [discriminate | simpl; unfold INT_MIN, INT_MAX; lia |].
    rewrite Hopen in Hopen'. injection Hopen' as <- <-. simpl in Hq0.
    apply (pushed_trans _ (statics m0) _ [] []); [rewrite Hst; apply pushed_ctor|].
    apply (pushed_trans _ g0 _ [] []); assumption. }
  assert (Hext : extends (statics m) g1).
  { apply (extends_trans _ (statics m0)).
    - rewrite Hst. exists []. simpl. rewrite !app_nil_r. auto.
    - eapply extends_process_all; eauto. }
  destruct (pushed_nothing _ _ Hquiet Hext) as [Hc Hf].
  split; [exact Hc|]. split; [exact Hf|].
  subst m1. cbn [heap]. rewrite delete_insert_eq, Hheap, delete_insert_eq.
  now apply delete_id.
Qed.

Lemma unterminated_block_is_dropped_witness :
  commands_of ("{" +:+ nl +:+ "a" +:+ nl +:+ "b" +:+ nl) = "{" :: ["a"; "b"] /\
  balanced_from 0 (["a"; "b"] ++ []) = true /\
  Z.of_nat (length (plain_cmds (["a"; "b"] ++ []))) < SIZE_MOD /\
  Z.of_nat (length (markers (["a"; "b"] ++ []))) + 2 <= INT_MAX /\
  exists m1 m2 : Machine,
    receive (connect 1 (boot (fun _ => 1700000000))).1
            ("{" +:+ nl +:+ "a" +:+ nl +:+ "b" +:+ nl)
            (connect 1 (boot (fun _ => 1700000000))).2 = Ok m1 /\
    disconnect (connect 1 (boot (fun _ => 1700000000))).1 m1 = Ok m2 /\
    g_consoleLogQueue (statics m2) =
      g_consoleLogQueue (statics (boot (fun _ => 1700000000))) /\
    g_fileLogQueue (statics m2) =
      g_fileLogQueue (statics (boot (fun _ => 1700000000))) /\
    heap m2 = heap (boot (fun _ => 1700000000)).
Proof.
  split; [vm_compute; reflexivity|]. split; [reflexivity|].
  split; [vm_compute; reflexivity|]. split; [vm_compute; discriminate|].
  apply (unterminated_block_is_dropped 1 (boot (fun _ => 1700000000)) _ ["a"; "b"] []);
    [vm_compute; reflexivity | reflexivity | vm_compute; reflexivity
    | vm_compute; discriminate].
Defined.

(** ** [flush] twice, and the capacity *)

(** X9.  [flush] does not push a batch twice: right after a [flush], a
    second [flush] changes neither queue nor the file-name counter, in
    whatever state the first one was called. *)
Theorem flush_twice (b : Bulk) (g : Globals) :
  let b1 := (flush b g).1 in
  let g1 := (flush b g).2 in
  g_consoleLogQueue (flush b1 g1).2 = g_consoleLogQueue g1 /\
  g_fileLogQueue (flush b1 g1).2 = g_fileLogQueue g1 /\
  postfix_counter (flush b1 g1).2 = postfix_counter g1.
Proof.
  cbv zeta.
  assert (H : forall b1 g1,
             m_nestingLvl b1 <> 0 \/ m_nCmds b1 = 0 ->
             g_consoleLogQueue (flush b1 g1).2 = g_consoleLogQueue g1 /\
             g_fileLogQueue (flush b1 g1).2 = g_fileLogQueue g1 /\
             postfix_counter (flush b1 g1).2 = postfix_counter g1).
  { intros b1 g1 [Hd|Hn].
    - rewrite (flush_gated b1 g1 Hd). auto.
    - unfold flush, log. rewrite Hn. destruct (m_nestingLvl b1 =? 0); simpl; auto. }
  apply H. unfold flush. destruct (Z.eqb_spec (m_nestingLvl b) 0) as [Hd|Hd].
  - right. destruct (log_resets b g) as ([_ Hn] & _). exact Hn.
  - left. exact Hd.
Qed.

Lemma process_capacity (cmd : string) (b b' : Bulk) (g g' : Globals) :
  process cmd b g = Ok (b', g') -> m_buffer_size b' = m_buffer_size b.
Proof.
  assert (Hflush : forall b0 g0, m_buffer_size (flush b0 g0).1 = m_buffer_size b0).
  { intros b0 g0. unfold flush. destruct (m_nestingLvl b0 =? 0); [|reflexivity].
    apply log_resets. }
  unfold process. destruct (String.eqb cmd "{").
  - assert (Hf : m_buffer_size (if m_nestingLvl b =? 0 then flush b g else (b, g)).1
                 = m_buffer_size b)
      by (destruct (m_nestingLvl b =? 0); [apply Hflush | reflexivity]).
    destruct (if m_nestingLvl b =? 0 then flush b g else (b, g)) as [b1 g1].
    destruct (int_incr (m_nestingLvl b1)); simpl; [|discriminate].
    intros [= <- _]. exact Hf.
  - destruct (String.eqb cmd "}").
    + destruct (int_decr (m_nestingLvl b)) as [d|]; simpl; [|discriminate].
      destruct (d =? 0); intros [= E].
      * apply (f_equal fst) in E. simpl in E. subst b'. now rewrite Hflush.
      * now subst b'.
    + assert (H1 : m_buffer_size (push_cmd cmd b g).1 = m_buffer_size b)
        by (unfold push_cmd; destruct (0 <? m_nCmds b); reflexivity).
      destruct (push_cmd cmd b g) as [b1 g1]. simpl in H1.
      destruct (_ && _); intros [= E].
      * apply (f_equal fst) in E. simpl in E. subst b'. now rewrite Hflush.
      * now subst b'.
Qed.

(** X10.  The capacity of a session is fixed at [connect]: no sequence of
    commands, markers included, changes [m_buffer_size], and the command
    count stays a [size_t] value. *)
Theorem capacity_is_fixed (cmds : list string) :
  forall (b b' : Bulk) (g g' : Globals),
    0 <= m_nCmds b < SIZE_MOD ->
    process_all cmds b g = Ok (b', g') ->
    m_buffer_size b' = m_buffer_size b /\ 0 <= m_nCmds b' < SIZE_MOD.
Proof.
  assert (Hcount : forall cmd b b' g g',
             0 <= m_nCmds b < SIZE_MOD -> process cmd b g = Ok (b', g') ->
             0 <= m_nCmds b' < SIZE_MOD).
  { intros cmd b b' g g' Hn.
    assert (Hflush : forall b0 g0, 0 <= m_nCmds b0 < SIZE_MOD ->
                                   0 <= m_nCmds (flush b0 g0).1 < SIZE_MOD).
    { intros b0 g0 H0. unfold flush. destruct (m_nestingLvl b0 =? 0); [|exact H0].
      destruct (log_resets b0 g0) as ([_ E] & _). rewrite E. simpl. unfold SIZE_MOD. lia. }
    unfold process. destruct (String.eqb cmd "{").
    - assert (Hf : 0 <= m_nCmds (if m_nestingLvl b =? 0 then flush b g else (b, g)).1
                   < SIZE_MOD)
        by (destruct (m_nestingLvl b =? 0); [now apply Hflush | exact Hn]).
      destruct (if m_nestingLvl b =? 0 then flush b g else (b, g)) as [b1 g1].
      destruct (int_incr (m_nestingLvl b1)); simpl; [|discriminate].
      intros [= <- _]. exact Hf.
    - destruct (String.eqb cmd "}").
      + destruct (int_decr (m_nestingLvl b)) as [d|]; simpl; [|discriminate].
        destruct (d =? 0); intros [= E].
        * apply (f_equal fst) in E. simpl in E. subst b'. now apply Hflush.
        * now subst b'.
      + assert (H1 : 0 <= m_nCmds (push_cmd cmd b g).1 < SIZE_MOD).
        { unfold push_cmd. destruct (0 <? m_nCmds b); simpl;
            unfold size_incr; apply Z.mod_pos_bound; unfold SIZE_MOD; lia. }
        destruct (push_cmd cmd b g) as [b1 g1]. simpl in H1.
        destruct (_ && _); intros [= E].
        * apply (f_equal fst) in E. simpl in E. subst b'. now apply Hflush.
        * now subst b'. }
  induction cmds as [|cmd cmds IH]; intros b b' g g' Hn.
  - intros [= <- _]. auto.
  - cbn [process_all]. destruct (process cmd b g) as [[b1 g1]|] eqn:E; simpl; [|discriminate].
    intros Hrest. rewrite <- (process_capacity _ _ _ _ _ E).
    eapply IH; eauto.
Qed.

Lemma capacity_is_fixed_witness :
  0 <= m_nCmds (mkBulk "bulk:" 2 0 1700000000 0) < SIZE_MOD /\
  process_all ["a"; "{"; "b"; "c"; "d"]
    (mkBulk "bulk:" 2 0 1700000000 0) (mkGlobals (fun _ => 1700000000) 1 0 [] []) =
    Ok (mkBulk "bulk: b, c, d" 2 3 1700000000 1,
        mkGlobals (fun _ => 1700000000) 4 1
                  [("bulk1700000000_0.log", "bulk: a")] ["bulk: a"]) /\
  m_buffer_size (mkBulk "bulk: b, c, d" 2 3 1700000000 1) =
    m_buffer_size (mkBulk "bulk:" 2 0 1700000000 0) /\
  0 <= m_nCmds (mkBulk "bulk: b, c, d" 2 3 1700000000 1) < SIZE_MOD.
Proof.
  assert (H1 : 0 <= m_nCmds (mkBulk "bulk:" 2 0 1700000000 0) < SIZE_MOD)
    by (simpl; unfold SIZE_MOD; lia).
  assert (H2 : process_all ["a"; "{"; "b"; "c"; "d"]
    (mkBulk "bulk:" 2 0 1700000000 0) (mkGlobals (fun _ => 1700000000) 1 0 [] []) =
    Ok (mkBulk "bulk: b, c, d" 2 3 1700000000 1,
        mkGlobals (fun _ => 1700000000) 4 1
                  [("bulk1700000000_0.log", "bulk: a")] ["bulk: a"]))
    by (vm_compute; reflexivity).
  split; [exact H1|]. split; [exact H2|].
  exact (capacity_is_fixed _ _ _ _ _ H1 H2).
Defined.

(** ** What a file name tells *)

Lemma Z_to_int_nonnil (t : Z) : Z.to_int t <> Pos Nil /\ Z.to_int t <> Neg Nil.
Proof.
  destruct t as [|p|p]; simpl; split; try discriminate;
    intros [= E]; exact (DecimalPos.Unsigned.to_uint_nonnil p E).
Qed.

Lemma to_string_long_inj (t t' : Z) :
  to_string_long t = to_string_long t' -> t = t'.
Proof.
  intros E. unfold to_string_long in E.
  apply (f_equal NilZero.int_of_string) in E.
  destruct (Z_to_int_nonnil t) as [H1 H2]. destruct (Z_to_int_nonnil t') as [H1' H2'].
  rewrite !NilZero.isi in E by assumption.
  injection E as E. now apply DecimalZ.to_int_inj.
Qed.

(** X11.  A file name can be read back: two names are equal only when
    both the timestamps and the counter values they were built from are
    equal. *)
Theorem file_name_determines (t t' c c' : Z) :
  0 <= c -> 0 <= c' ->
  file_name t c = file_name t' c' ->
  t = t' /\ c = c'.
Proof.
  intros Hc Hc' E. unfold file_name in E.
  apply String.app_inj in E.
  change ("_" +:+ to_string_unsigned c +:+ ".log")
    with (String "_" (to_string_unsigned c +:+ String "." "log")) in E.
  change ("_" +:+ to_string_unsigned c' +:+ ".log")
    with (String "_" (to_string_unsigned c' +:+ String "." "log")) in E.
  apply split_at_char in E as [Et E]; auto using to_string_long_no_underscore.
  apply split_at_char in E as [E _]; auto using to_string_unsigned_no_dot.
  split; [now apply to_string_long_inj | now apply to_string_unsigned_inj].
Qed.

Lemma file_name_determines_witness :
  0 <= 7 /\ 0 <= 7 /\
  file_name 1700000000 7 = file_name 1700000000 7 /\
  1700000000 = 1700000000 /\ 7 = 7.
Proof.
  split; [lia|]. split; [lia|]. split; [reflexivity|].
  apply (file_name_determines 1700000000 1700000000 7 7); [lia | lia | reflexivity].
Defined.

(** ** The file a threshold batch goes to *)

(** What a plain command does to a buffer holding [p], exactly. *)
Lemma process_plain_exact (cmd : string) (b : Bulk) (g : Globals) (p : list string) :
  pending b p -> plain cmd = true -> Z.of_nat (length p) + 1 < SIZE_MOD ->
  let t := match p with [] => clock g (ticks g) | _ :: _ => m_time b end in
  let g1 := match p with [] => (std_time g).2 | _ :: _ => g end in
  let b1 := mkBulk (wire_format (p ++ [cmd])) (m_buffer_size b)
                   (Z.of_nat (length p) + 1) t (m_nestingLvl b) in
  process cmd b g =
    Ok (if (Z.of_nat (length p) + 1 =? m_buffer_size b) && (m_nestingLvl b =? 0)
        then flush b1 g1 else (b1, g1)).
Proof.
  intros [Hs Hn] Hpl Hlen. cbv zeta. unfold process, push_cmd.
  rewrite (plain_not_open _ Hpl), (plain_not_close _ Hpl), Hn.
  rewrite wire_format_snoc.
  destruct p as [|c p]; simpl length in *.
  - simpl. unfold size_incr. rewrite Hn, Hs. reflexivity.
  - replace (0 <? Z.of_nat (S (length p))) with true by (symmetry; apply Z.ltb_lt; lia).
    cbn [set_cmds set_nCmds set_time m_cmds m_nCmds m_buffer_size m_time m_nestingLvl].
    unfold size_incr. rewrite Hn, Hs, Z.mod_small by lia.
    reflexivity.
Qed.

(** Plain commands added to a non-empty buffer without reaching a flush
    leave the batch timestamp and the statics alone. *)
Lemma accumulate_exact (l : list string) :
  forall (p : list string) (b : Bulk) (g : Globals),
    pending b p -> p <> [] -> forallb plain l = true ->
    m_nestingLvl b <> 0 \/ Z.of_nat (length p + length l) < m_buffer_size b ->
    Z.of_nat (length p + length l) < SIZE_MOD ->
    process_all l b g =
      Ok (mkBulk (wire_format (p ++ l)) (m_buffer_size b)
                 (Z.of_nat (length (p ++ l))) (m_time b) (m_nestingLvl b), g).
Proof.
  induction l as [|cmd l IH]; intros p b g Hp Hne Hpl Hno Hlen.
  - rewrite app_nil_r. destruct Hp as [Hs Hn]. rewrite <- Hs, <- Hn.
    now destruct b.
  - simpl in Hpl. apply andb_true_iff in Hpl as [Hc Hl]. simpl length in *.
    cbn [process_all]. rewrite (process_plain_exact cmd b g p Hp Hc) by lia.
    destruct p as [|c p]; [contradiction|]. simpl length in *.
    replace ((Z.of_nat (S (length p)) + 1 =? m_buffer_size b) && (m_nestingLvl b =? 0))
      with false.
    2:{ symmetry. apply andb_false_iff. destruct Hno as [Hd|Hlt].
        - right. now apply Z.eqb_neq.
        - left. apply Z.eqb_neq. lia. }
    simpl mbind. rewrite (IH ((c :: p) ++ [cmd])).
    + cbn [m_buffer_size m_time m_nestingLvl]. now rewrite <- app_assoc.
    + split; [reflexivity|]. cbn [m_nCmds]. rewrite length_app. simpl length. lia.
    + now destruct p.
    + exact Hl.
    + cbn [m_nestingLvl m_buffer_size]. rewrite length_app. simpl length.
      destruct Hno; [left; assumption | right; lia].
    + rewrite length_app. simpl length. lia.
Qed.

(** X12.  The file of a threshold batch.  A session with an empty buffer
    at nesting level zero that processes exactly [capacity] plain commands
    pushes one item onto each queue: the file item is named after the clock
    reading taken when the first of these commands arrived and after the
    counter value before the flush, its content and the console item are
    the wire format of the commands; the counter advances by one modulo
    [2^32], and the buffer is empty again. *)
Theorem threshold_batch_file (b : Bulk) (g : Globals) (l : list string) :
  m_cmds b = "bulk:" -> m_nCmds b = 0 -> m_nestingLvl b = 0 ->
  forallb plain l = true -> l <> [] ->
  Z.of_nat (length l) = m_buffer_size b -> m_buffer_size b < SIZE_MOD ->
  exists (b' : Bulk) (g' : Globals),
    process_all l b g = Ok (b', g') /\
    g_fileLogQueue g' =
      g_fileLogQueue g
      ++ [(file_name (clock g (ticks g)) (postfix_counter g), wire_format l)] /\
    g_consoleLogQueue g' = g_consoleLogQueue g ++ [wire_format l] /\
    postfix_counter g' = uint_incr (postfix_counter g) /\
    m_cmds b' = "bulk:" /\ m_nCmds b' = 0 /\ m_nestingLvl b' = 0.
Proof.
  intros Hs Hn Hd Hpl Hne Hlen Hcap.
  assert (Hp : pending b []) by (split; assumption).
  assert (Hlog : forall (b1 : Bulk) (g1 : Globals),
             0 < m_nCmds b1 -> m_nestingLvl b1 = 0 ->
             g_fileLogQueue (flush b1 g1).2 =
               g_fileLogQueue g1 ++ [(file_name (m_time b1) (postfix_counter g1), m_cmds b1)] /\
             g_consoleLogQueue (flush b1 g1).2 = g_consoleLogQueue g1 ++ [m_cmds b1] /\
             postfix_counter (flush b1 g1).2 = uint_incr (postfix_counter g1) /\
             m_cmds (flush b1 g1).1 = "bulk:" /\ m_nCmds (flush b1 g1).1 = 0 /\
             m_nestingLvl (flush b1 g1).1 = 0).
  { intros b1 g1 Hpos Hz. unfold flush, log. rewrite Hz.
    replace (0 <? m_nCmds b1) with true by (symmetry; now apply Z.ltb_lt).
    simpl. auto 10. }
  destruct (exists_last Hne) as (l' & x & ->).
  rewrite forallb_app in Hpl. apply andb_true_iff in Hpl as [Hpl' Hx].
  simpl in Hx. rewrite andb_true_r in Hx.
  rewrite length_app in Hlen. simpl length in Hlen.
  rewrite process_all_app.
  destruct l' as [|c l'].
  - (* capacity one: the first command is the batch *)
    simpl length in Hlen. cbn [process_all app]. simpl mbind.
    rewrite (process_plain_exact x b g [] Hp Hx) by (simpl; unfold SIZE_MOD; lia).
    simpl length. rewrite Hd.
    replace (Z.of_nat 0 + 1 =? m_buffer_size b) with true
      by (symmetry; apply Z.eqb_eq; lia).
    simpl andb. cbv iota. cbn [mbind result_bind].
    match goal with |- context [flush ?b1 ?g1] =>
      destruct (Hlog b1 g1) as (H1 & H2 & H3 & H4 & H5 & H6); [simpl; lia | reflexivity |];
      destruct (flush b1 g1) as [b' g'] end.
    exists b', g'. simpl in *. auto 10.
  - (* the first command starts the batch, the last one completes it *)
    simpl length in Hlen. simpl in Hpl'. apply andb_true_iff in Hpl' as [Hc Hl'].
    cbn [process_all app].
    rewrite (process_plain_exact c b g [] Hp Hc) by (simpl; unfold SIZE_MOD; lia).
    simpl length. rewrite Hd.
    replace (Z.of_nat 0 + 1 =? m_buffer_size b) with false
      by (symmetry; apply Z.eqb_neq; lia).
    simpl andb. cbv iota. cbn [mbind result_bind].
    set (b1 := mkBulk (wire_format ([] ++ [c])) (m_buffer_size b) (Z.of_nat 0 + 1)
                      (clock g (ticks g)) 0).
    assert (Hp1 : pending b1 [c]) by (split; reflexivity).
    rewrite (accumulate_exact l' [c] b1 (std_time g).2 Hp1) by
      (try discriminate; try assumption; simpl; try right; lia).
    cbn [mbind result_bind].
    set (b2 := mkBulk _ _ _ _ _).
    assert (Hp2 : pending b2 ([c] ++ l')) by (split; reflexivity).
    rewrite (process_plain_exact x b2 (std_time g).2 ([c] ++ l') Hp2 Hx)
      by (simpl length; lia).
    replace ((Z.of_nat (length ([c] ++ l')) + 1 =? m_buffer_size b2)
             && (m_nestingLvl b2 =? 0)) with true
      by (symmetry; apply andb_true_iff; split; apply Z.eqb_eq;
          [subst b2 b1; simpl; lia | reflexivity]).
    cbv iota. cbn [app].
    match goal with |- context [flush ?b3 ?g3] =>
      destruct (Hlog b3 g3) as (H1 & H2 & H3 & H4 & H5 & H6);
        [cbn [m_nCmds]; lia | reflexivity |];
      destruct (flush b3 g3) as [b' g'] end.
    exists b', g'. simpl in *. auto 10.
Qed.

Lemma threshold_batch_file_witness :
  m_cmds (mkBulk "bulk:" 2 0 1699999999 0) = "bulk:" /\
  m_nCmds (mkBulk "bulk:" 2 0 1699999999 0) = 0 /\
  m_nestingLvl (mkBulk "bulk:" 2 0 1699999999 0) = 0 /\
  forallb plain ["a"; "b"] = true /\ ["a"; "b"] <> [] /\
  Z.of_nat (length ["a"; "b"]) = m_buffer_size (mkBulk "bulk:" 2 0 1699999999 0) /\
  m_buffer_size (mkBulk "bulk:" 2 0 1699999999 0) < SIZE_MOD /\
  exists (b' : Bulk) (g' : Globals),
    process_all ["a"; "b"] (mkBulk "bulk:" 2 0 1699999999 0)
                (mkGlobals slow_clock 1 4 [] []) = Ok (b', g') /\
    g_fileLogQueue g' =
      g_fileLogQueue (mkGlobals slow_clock 1 4 [] [])
      ++ [(file_name (clock (mkGlobals slow_clock 1 4 [] [])
                            (ticks (mkGlobals slow_clock 1 4 [] [])))
                     (postfix_counter (mkGlobals slow_clock 1 4 [] [])),
           wire_format ["a"; "b"])] /\
    g_consoleLogQueue g' =
      g_consoleLogQueue (mkGlobals slow_clock 1 4 [] []) ++ [wire_format ["a"; "b"]] /\
    postfix_counter g' = uint_incr (postfix_counter (mkGlobals slow_clock 1 4 [] [])) /\
    m_cmds b' = "bulk:" /\ m_nCmds b' = 0 /\ m_nestingLvl b' = 0.
Proof.
  split; [reflexivity|]. split; [reflexivity|]. split; [reflexivity|].
  split; [reflexivity|]. split; [discriminate|]. split; [reflexivity|].
  split; [reflexivity|].
  apply threshold_batch_file;
    [reflexivity | reflexivity | reflexivity | reflexivity | discriminate
    | reflexivity | reflexivity].
Defined.

(** ** The sink workers under every schedule *)

Ltac step_cases H :=
  repeat match type of H with
  | Some _ = Some _ => injection H as <-
  | None = Some _ => discriminate H
  | context [match ?x with _ => _ end] => destruct x eqn:?; simpl in H
  end.

(** One event keeps the console items in order: what is written, then
    what the worker holds, then what waits, is the same sequence as before,
    with the item of a console push added at the end. *)
Lemma step_console_order (e : event) (s s' : Logger) :
  step e s = Some s' ->
  console_out s' ++ inflight (console_thread s') ++ con_queue s' =
  (console_out s ++ inflight (console_thread s) ++ con_queue s) ++ console_pushes [e].
Proof.
  intros H. unfold step, wake_thread, dtor_step, logger_step, wake in H.
  destruct e as [k| |item| |item|k|k]; simpl in H; step_cases H; simpl;
    rewrite ?app_nil_r, <- ?app_assoc; simpl; try reflexivity;
    repeat match goal with
    | E : console_thread _ = _ |- _ => rewrite E; clear E
    | E : con_queue _ = _ |- _ => rewrite E; clear E
    end; simpl; rewrite ?app_nil_r; reflexivity.
Qed.

Lemma console_pushes_app (es1 es2 : list event) :
  console_pushes (es1 ++ es2) = console_pushes es1 ++ console_pushes es2.
Proof.
  induction es1 as [|e es1 IH]; [reflexivity|].
  destruct e; simpl; rewrite IH; reflexivity.
Qed.

(** X13.  The console sink is first-in first-out under every schedule of
    worker steps, pushes, notifications, spurious wake-ups and destructor
    steps: in any state the process can reach, the lines written so far,
    followed by the line the worker holds and by the lines still queued,
    are exactly the lines pushed, in push order.  No line is written twice,
    skipped or overtaken. *)
Theorem console_sink_fifo (es : list event) :
  forall s s' : Logger,
    run es s = Some s' ->
    console_out s' ++ inflight (console_thread s') ++ con_queue s' =
    (console_out s ++ inflight (console_thread s) ++ con_queue s) ++ console_pushes es.
Proof.
  induction es as [|e es IH]; intros s s' H.
  - injection H as <-. simpl. now rewrite app_nil_r.
  - cbn [run] in H. destruct (step e s) as [s1|] eqn:E; simpl in H; [|discriminate].
    rewrite (IH s1 s' H), (step_console_order e s s1 E).
    change (e :: es) with ([e] ++ es). now rewrite console_pushes_app, <- !app_assoc.
Qed.

Lemma console_sink_fifo_witness :
  run [PushConsole "bulk: a"; PushConsole "bulk: b"; Run 0; Run 0] started =
    Some (mkLogger false ["bulk: b"] [] AtWait AtWait AtWait ["bulk: a"] [] NotEntered) /\
  ["bulk: a"] ++ inflight (@AtWait string) ++ ["bulk: b"] =
    (console_out started ++ inflight (console_thread started) ++ con_queue started)
    ++ console_pushes [PushConsole "bulk: a"; PushConsole "bulk: b"; Run 0; Run 0].
Proof.
  assert (H : run [PushConsole "bulk: a"; PushConsole "bulk: b"; Run 0; Run 0] started =
    Some (mkLogger false ["bulk: b"] [] AtWait AtWait AtWait ["bulk: a"] [] NotEntered))
    by reflexivity.
  split; [exact H|].
  exact (console_sink_fifo _ _ _ H).
Defined.

Lemma step_file_items (e : event) (s s' : Logger) :
  step e s = Some s' ->
  Permutation
    (files_out s' ++ inflight (file_thread1 s') ++ inflight (file_thread2 s')
       ++ file_queue s')
    ((files_out s ++ inflight (file_thread1 s) ++ inflight (file_thread2 s)
        ++ file_queue s) ++ file_pushes [e]).
Proof.
  intros H. unfold step, wake_thread, dtor_step, logger_step, wake in H.
  destruct e as [k| |item| |item|k|k]; simpl in H; step_cases H; simpl;
    repeat match goal with
    | E : file_thread1 _ = _ |- _ => rewrite E; clear E
    | E : file_thread2 _ = _ |- _ => rewrite E; clear E
    | E : file_queue _ = _ |- _ => rewrite E; clear E
    end; simpl; rewrite ?app_nil_r, <- ?app_assoc; simpl;
    try reflexivity.
  all: try (apply Permutation_app_head; simpl).
  all: try (rewrite <- Permutation_middle; reflexivity).
  all: try (symmetry; rewrite <- Permutation_middle; reflexivity).
Qed.

Lemma file_pushes_app (es1 es2 : list event) :
  file_pushes (es1 ++ es2) = file_pushes es1 ++ file_pushes es2.
Proof.
  induction es1 as [|e es1 IH]; [reflexivity|].
  destruct e; simpl; rewrite IH; reflexivity.
Qed.

(** X14.  The file sink neither loses nor duplicates an item under any
    schedule, though its two workers may write out of push order: in any
    state the process can reach, the files written, the items the two
    workers hold and the items still queued are together a rearrangement of
    the items pushed. *)
Theorem file_sink_conserves (es : list event) :
  forall s s' : Logger,
    run es s = Some s' ->
    Permutation
      (files_out s' ++ inflight (file_thread1 s') ++ inflight (file_thread2 s')
         ++ file_queue s')
      ((files_out s ++ inflight (file_thread1 s) ++ inflight (file_thread2 s)
          ++ file_queue s) ++ file_pushes es).
Proof.
  induction es as [|e es IH]; intros s s' H.
  - injection H as <-. simpl. now rewrite app_nil_r.
  - cbn [run] in H. destruct (step e s) as [s1|] eqn:E; simpl in H; [|discriminate].
    rewrite (IH s1 s' H), (step_file_items e s s1 E).
    change (e :: es) with ([e] ++ es). now rewrite file_pushes_app, <- !app_assoc.
Qed.

Lemma file_sink_conserves_witness :
  run [PushFile ("f0", "bulk: a"); PushFile ("f1", "bulk: b"); Run 1; Run 2; Run 2]
      started =
    Some (mkLogger false [] [] AtWait (Writing ("f0", "bulk: a")) AtWait []
                   [("f1", "bulk: b")] NotEntered) /\
  Permutation
    ([("f1", "bulk: b")] ++ inflight (Writing ("f0", "bulk: a"))
       ++ inflight (@AtWait (string * string)) ++ [])
    ((files_out started ++ inflight (file_thread1 started)
        ++ inflight (file_thread2 started) ++ file_queue started)
     ++ file_pushes [PushFile ("f0", "bulk: a"); PushFile ("f1", "bulk: b");
                     Run 1; Run 2; Run 2]).
Proof.
  assert (H : run [PushFile ("f0", "bulk: a"); PushFile ("f1", "bulk: b");
                   Run 1; Run 2; Run 2] started =
    Some (mkLogger false [] [] AtWait (Writing ("f0", "bulk: a")) AtWait []
                   [("f1", "bulk: b")] NotEntered))
    by reflexivity.
  split; [exact H|].
  exact (file_sink_conserves _ _ _ H).
Defined.

Lemma step_shutdown_order (e : event) (s s' : Logger) :
  shutdown_order s = true -> step e s = Some s' -> shutdown_order s' = true.
Proof.
  intros Hinv H. destruct s as [stop qc qf pc0 pc1 pc2 outc outf d].
  unfold shutdown_order in Hinv. simpl in Hinv.
  destruct d as [|[|[|[|k]]]|]; destruct stop, pc0, pc1, pc2;
    simpl in Hinv; try discriminate Hinv;
    destruct e as [[|[|[|?]]]| |?| |?|[|[|[|?]]]|[|[|[|?]]]];
    unfold step, wake_thread, dtor_step, logger_step, wake in H; simpl in H;
    step_cases H; reflexivity.
Qed.

(** X15.  Shutdown happens in order under every schedule.  In any state
    the process can reach from start-up: a worker is past its loop only if
    the stop flag is set; the destructor has begun only if the flag is set;
    and the destructor has returned only if all three workers are past
    their loops. *)
Theorem shutdown_in_order (es : list event) (s : Logger) :
  run es started = Some s ->
  (forall k : nat, thread_exited s k = true -> s_bStopWorkers s = true) /\
  (dtor s <> NotEntered -> s_bStopWorkers s = true) /\
  (dtor s = Destroyed ->
   thread_exited s 0 = true /\ thread_exited s 1 = true /\ thread_exited s 2 = true).
Proof.
  assert (Hinv : forall es s0 s1,
             shutdown_order s0 = true -> run es s0 = Some s1 -> shutdown_order s1 = true).
  { clear. induction es as [|e es IH]; intros s0 s1 H0 H.
    - now injection H as <-.
    - cbn [run] in H. destruct (step e s0) as [s2|] eqn:E; simpl in H; [|discriminate].
      eapply IH; [eapply step_shutdown_order; eauto | exact H]. }
  intros Hrun. pose proof (Hinv es started s eq_refl Hrun) as H.
  unfold shutdown_order in H. unfold thread_exited.
  destruct (dtor s) as [|[|[|[|]]]|];
    destruct (s_bStopWorkers s), (console_thread s), (file_thread1 s), (file_thread2 s);
    simpl in H; try discriminate;
    (split; [intros [|[|[|k]]]; simpl; auto; discriminate|]);
    (split; [intros Hd; auto; contradiction|]);
    intros Hd; try discriminate; auto.
Qed.

Lemma shutdown_in_order_witness :
  run idle_then_exit started =
    Some (mkLogger true [] [] Blocked Blocked Blocked [] [] (Joining 0)) /\
  (forall k : nat,
      thread_exited (mkLogger true [] [] Blocked Blocked Blocked [] [] (Joining 0)) k = true ->
      s_bStopWorkers (mkLogger true [] [] Blocked Blocked Blocked [] [] (Joining 0)) = true) /\
  (dtor (mkLogger true [] [] Blocked Blocked Blocked [] [] (Joining 0)) <> NotEntered ->
   s_bStopWorkers (mkLogger true [] [] Blocked Blocked Blocked [] [] (Joining 0)) = true) /\
  (dtor (mkLogger true [] [] Blocked Blocked Blocked [] [] (Joining 0)) = Destroyed ->
   thread_exited (mkLogger true [] [] Blocked Blocked Blocked [] [] (Joining 0)) 0 = true /\
   thread_exited (mkLogger true [] [] Blocked Blocked Blocked [] [] (Joining 0)) 1 = true /\
   thread_exited (mkLogger true [] [] Blocked Blocked Blocked [] [] (Joining 0)) 2 = true).
Proof.
  assert (H : run idle_then_exit started =
    Some (mkLogger true [] [] Blocked Blocked Blocked [] [] (Joining 0))) by reflexivity.
  split; [exact H|].
  exact (shutdown_in_order _ _ H).
Defined.





(** ** A session from [connect] to [disconnect] *)

Lemma process_all_app_inv (l1 l2 : list string) (b b' : Bulk) (g g' : Globals) :
  process_all (l1 ++ l2) b g = Ok (b', g') ->
  exists b1 g1, process_all l1 b g = Ok (b1, g1) /\ process_all l2 b1 g1 = Ok (b', g').
Proof.
  rewrite process_all_app.
  destruct (process_all l1 b g) as [[b1 g1]|]; simpl; [eauto | discriminate].
Qed.

(** Buffers received one after the other on a live handle are processed
    as the one sequence of their commands. *)
Lemma receives_live (h : N) (datas : list string) :
  forall (m : Machine) (b b' : Bulk) (g' : Globals),
    h <> nullptr -> heap m !! h = Some b ->
    process_all (concat (map commands_of datas)) b (statics m) = Ok (b', g') ->
    run_calls (map (Receive h) datas) m = Ok (mkMachine g' (<[h := b']> (heap m))).
Proof.
  induction datas as [|data datas IH]; intros m b b' g' Hn Hl Hrun.
  - simpl in Hrun. injection Hrun as <- <-. simpl.
    now rewrite (insert_id _ _ _ Hl), machine_eta.
  - cbn [map concat] in Hrun.
    apply process_all_app_inv in Hrun as (b1 & g1 & Hrun1 & Hrun2).
    cbn [map run_calls run_call].
    rewrite (receive_live h data m b b1 g1 Hn Hl Hrun1). simpl mbind.
    rewrite (IH (mkMachine g1 (<[h:=b1]> (heap m))) b1 b' g' Hn
               (lookup_insert_eq (heap m) h b1) Hrun2).
    simpl. now rewrite insert_insert_eq.
Qed.

(** X17.  A session whose blocks are all closed when it ends delivers
    every command exactly once and in order.  Open a session of any
    capacity, send it any buffers, and disconnect; if the open and close
    markers among the commands are equal in number, the batches pushed
    between [connect] and the return of [disconnect] are non-empty, their
    commands read one batch after the other are exactly the plain commands
    received, in arrival order, and the session is released. *)
Theorem session_delivers_every_command
    (capacity : Z) (m : Machine) (datas : list string) :
  Z.of_nat (length (plain_cmds (concat (map commands_of datas)))) < SIZE_MOD ->
  Z.of_nat (length (markers (concat (map commands_of datas)))) <= INT_MAX ->
  depth_after 0 (concat (map commands_of datas)) = 0 ->
  exists (m' : Machine) (batches : list (list string)),
    run_calls (map (Receive (connect capacity m).1) datas
               ++ [Disconnect (connect capacity m).1])
              (connect capacity m).2 = Ok m' /\
    pushed (statics m) (statics m') (map wire_format batches) /\
    Forall (fun l => l <> []) batches /\
    concat batches = plain_cmds (concat (map commands_of datas)) /\
    heap m' = heap m.
Proof.
  intros Hlen Hdep Hbal.
  destruct (connect_spec capacity m) as (Hn & Hfree & Hheap & Hst).
  set (h := (connect capacity m).1) in *. set (m0 := (connect capacity m).2) in *.
  set (lines := concat (map commands_of datas)) in *.
  assert (Hl0 : heap m0 !! h = Some (Bulk_ctor capacity (statics m)).1)
    by (rewrite Hheap; apply lookup_insert_eq).
  destruct (process_all_refines lines (Bulk_ctor capacity (statics m)).1 (statics m0) []
              (pending_ctor capacity (statics m)))
    as (b1 & g1 & Hrun & Hp1 & Hd1 & Hc1 & Hq1); [simpl; lia | simpl; lia |].
  pose proof (abs_run_spec (m_buffer_size (Bulk_ctor capacity (statics m)).1) lines []
                (m_nestingLvl (Bulk_ctor capacity (statics m)).1)) as (Hcat & Hdepth & Hne).
  destruct (abs_run _ lines _) as [[p d] out]. simpl in Hp1, Hd1, Hq1, Hcat, Hdepth, Hne.
  assert (Hd0 : m_nestingLvl b1 = 0) by congruence.
  pose proof (receives_live h datas m0 _ b1 g1 Hn Hl0 Hrun) as Hrecv.
  set (m1 := mkMachine g1 (<[h:=b1]> (heap m0))) in *.
  pose proof (disconnect_live h m1 b1 Hn (lookup_insert_eq (heap m0) h b1)) as Hdis.
  destruct (flush_pending b1 g1 p Hp1 Hd0) as (_ & _ & _ & Hq2).
  exists (mkMachine (flush b1 (statics m1)).2 (delete h (heap m1))), (out ++ batch_of p).
  split. { rewrite run_calls_app, Hrecv. cbn [mbind result_bind run_calls run_call].
           now rewrite Hdis. }
  split. { rewrite map_app.
           apply (pushed_trans _ (statics m0) _ [] _); [rewrite Hst; apply pushed_ctor|].
           exact (pushed_trans _ _ _ _ _ Hq1 Hq2). }
  split; [apply Forall_app; auto using batch_of_nonempty|].
  split; [now rewrite concat_app, batch_of_concat|].
  subst m1. cbn [heap]. rewrite delete_insert_eq, Hheap, delete_insert_eq.
  now apply delete_id.
Qed.

Lemma session_delivers_every_command_witness :
  Z.of_nat (length (plain_cmds (concat (map commands_of
     ["a" +:+ nl +:+ "{" +:+ nl +:+ "b" +:+ nl; "c" +:+ nl +:+ "}" +:+ nl +:+ "d" +:+ nl]))))
    < SIZE_MOD /\
  Z.of_nat (length (markers (concat (map commands_of
     ["a" +:+ nl +:+ "{" +:+ nl +:+ "b" +:+ nl; "c" +:+ nl +:+ "}" +:+ nl +:+ "d" +:+ nl]))))
    <= INT_MAX /\
  depth_after 0 (concat (map commands_of
     ["a" +:+ nl +:+ "{" +:+ nl +:+ "b" +:+ nl; "c" +:+ nl +:+ "}" +:+ nl +:+ "d" +:+ nl])) = 0 /\
  exists (m' : Machine) (batches : list (list string)),
    run_calls (map (Receive (connect 2 (boot (fun _ => 1700000000))).1)
                 ["a" +:+ nl +:+ "{" +:+ nl +:+ "b" +:+ nl;
                  "c" +:+ nl +:+ "}" +:+ nl +:+ "d" +:+ nl]
               ++ [Disconnect (connect 2 (boot (fun _ => 1700000000))).1])
              (connect 2 (boot (fun _ => 1700000000))).2 = Ok m' /\
    pushed (statics (boot (fun _ => 1700000000))) (statics m') (map wire_format batches) /\
    Forall (fun l => l <> []) batches /\
    concat batches = plain_cmds (concat (map commands_of
      ["a" +:+ nl +:+ "{" +:+ nl +:+ "b" +:+ nl;
       "c" +:+ nl +:+ "}" +:+ nl +:+ "d" +:+ nl])) /\
    heap m' = heap (boot (fun _ => 1700000000)).
Proof.
  split; [vm_compute; reflexivity|]. split; [vm_compute; discriminate|].
  split; [vm_compute; reflexivity|].
  apply session_delivers_every_command;
    [vm_compute; reflexivity | vm_compute; discriminate | vm_compute; reflexivity].
Defined.

(** ** Where the code leaves defined behaviour *)

(** X18.  [process] overflows the nesting level in two cases only.  With
    the level in the range of [int], a call has undefined behaviour exactly
    when it is an open marker at level [INT_MAX] or a close marker at level
    [INT_MIN]; plain commands never do. *)
Theorem process_undefined_iff (cmd : string) (b : Bulk) (g : Globals) :
  INT_MIN <= m_nestingLvl b <= INT_MAX ->
  process cmd b g = UB <->
  (cmd = "{" /\ m_nestingLvl b = INT_MAX) \/ (cmd = "}" /\ m_nestingLvl b = INT_MIN).
Proof.
  intros Hrange. unfold process.
  destruct (String.eqb_spec cmd "{") as [->|Hopen].
  - pose proof (flush_level b g) as Hf.
    destruct (Z.eqb_spec (m_nestingLvl b) 0) as [Hz|Hz].
    + destruct (flush b g) as [b1 g1]. simpl in Hf. rewrite Hf, Hz. simpl.
      split; [discriminate|]. unfold INT_MAX, INT_MIN.
      intros [[_ E]|[E _]]; [lia | discriminate].
    + unfold int_incr. destruct (Z.ltb_spec (m_nestingLvl b) INT_MAX); simpl.
      * split; [discriminate|]. intros [[_ E]|[E _]]; [lia | discriminate].
      * split; [|reflexivity]. intros _. left. split; [reflexivity | lia].
  - destruct (String.eqb_spec cmd "}") as [->|Hclose].
    + unfold int_decr. destruct (Z.ltb_spec INT_MIN (m_nestingLvl b)); simpl.
      * split; [discriminate|]. intros [[E _]|[_ E]]; [discriminate | lia].
      * split; [|reflexivity]. intros _. right. split; [reflexivity | lia].
    + destruct (push_cmd cmd b g) as [b1 g1].
      split; [discriminate|]. intros [[E _]|[E _]]; contradiction.
Qed.

Lemma process_undefined_iff_witness :
  INT_MIN <= m_nestingLvl (mkBulk "bulk:" 3 0 1700000000 INT_MAX) <= INT_MAX /\
  (process "{" (mkBulk "bulk:" 3 0 1700000000 INT_MAX)
               (mkGlobals (fun _ => 1700000000) 1 0 [] []) = UB <->
   ("{" = "{" /\ m_nestingLvl (mkBulk "bulk:" 3 0 1700000000 INT_MAX) = INT_MAX) \/
   ("{" = "}" /\ m_nestingLvl (mkBulk "bulk:" 3 0 1700000000 INT_MAX) = INT_MIN)).
Proof.
  split; [simpl; unfold INT_MIN, INT_MAX; lia|].
  apply process_undefined_iff. simpl. unfold INT_MIN, INT_MAX. lia.
Defined.


